(** * Personal finance tracker: the transaction store of [FinanceTracker.tsx]

    A shallow embedding of the React component
    [src/components/FinanceTracker.tsx]: its [Transaction] records, the
    [useState] cells, the three effects (load, save, category reset), the
    handlers [handleSubmit] and [deleteTransaction] and the two derivations
    [calculateStats] and [filteredTransactions].

    Conventions of the embedding.
    - A JavaScript [number] is an IEEE-754 binary64 value: [spec_float] with
      precision 53 and maximal exponent 1024, with the operations of
      [SpecFloat] at that format.
    - A JavaScript string is a sequence of UTF-16 code units; a Rocq [string]
      stands for the strings whose code units are all below 256, one [ascii]
      per code unit.
    - The clock ([Date.now()], [new Date().toISOString()]) is an input of the
      handler that reads it.
    - Component state is passed explicitly; the durable slot is a finite map
      from keys to strings. *)

From Stdlib Require Import ZArith String Ascii List Bool Lia.
From Stdlib.Floats Require Import SpecFloat.
From stdpp Require Import base tactics option list strings pretty gmap.

Local Open Scope string_scope.

(** ** The JavaScript built-ins the component calls *)

Module JS.

(** [number]: binary64. *)
Definition number : Type := spec_float.

Definition prec : Z := 53.
Definition emax : Z := 1024.

Definition NaN : number := S754_nan.
Definition zero : number := S754_zero false.

(** [a + b] and [a - b] on numbers. *)
Definition add (a b : number) : number := SFadd prec emax a b.
Definition sub (a b : number) : number := SFsub prec emax a b.

(** [x > 0 && isFinite(x)]. *)
Definition positive_finite (x : number) : bool :=
  match x with
  | S754_finite false _ _ => true
  | _ => false
  end.

Global Instance number_eq_dec : EqDecision number.
Proof. solve_decision. Defined.

(** The number nearest to [(-1)^neg * m * 10^e10], ties to even: the
    rounding of a decimal literal's mathematical value. *)
Definition of_decimal (neg : bool) (m : N) (e10 : Z) : number :=
  match m with
  | N0 => S754_zero neg
  | Npos p =>
      if (0 <=? e10)%Z
      then binary_normalize prec emax
             (cond_Zopp neg (Zpos p * 10 ^ e10)%Z) 0%Z false
      else SFdiv prec emax
             (S754_finite neg p 0%Z)
             (S754_finite false (Z.to_pos (10 ^ (- e10))%Z) 0%Z)
  end.

(** White space and line terminators among the code units below 256:
    TAB, LF, VT, FF, CR, SP and NBSP. *)
Definition isWhiteSpace (c : ascii) : bool :=
  let n := N_of_ascii c in
  ((9 <=? n) && (n <=? 13) || (n =? 32) || (n =? 160))%N.

(** [String.prototype.trimStart], [trimEnd] and [trim]. *)
Fixpoint trimStart (s : string) : string :=
  match s with
  | EmptyString => EmptyString
  | String c s' => if isWhiteSpace c then trimStart s' else s
  end.

Fixpoint trimEnd (s : string) : string :=
  match s with
  | EmptyString => EmptyString
  | String c s' =>
      match trimEnd s' with
      | EmptyString => if isWhiteSpace c then EmptyString else String c EmptyString
      | r => String c r
      end
  end.

Definition trim (s : string) : string := trimEnd (trimStart s).

(** Truthiness of a string: [!s] holds exactly for the empty string. *)
Definition truthy (s : string) : bool :=
  match s with
  | EmptyString => false
  | String _ _ => true
  end.

(** *** Decimal literals *)

Definition digit (c : ascii) : option N :=
  let n := N_of_ascii c in
  if ((48 <=? n) && (n <=? 57))%N then Some (n - 48)%N else None.

(** Reads the longest run of decimal digits at the head of [s], continuing
    the value [acc]; returns the value, the number of digits read and the
    rest of the string. *)
Fixpoint digits (acc : N) (count : nat) (s : string) : N * nat * string :=
  match s with
  | EmptyString => (acc, count, s)
  | String c s' =>
      match digit c with
      | Some d => digits (acc * 10 + d)%N (S count) s'
      | None => (acc, count, s)
      end
  end.

(** An optional sign. *)
Definition sign (s : string) : bool * string :=
  match s with
  | String "-" s' => (true, s')
  | String "+" s' => (false, s')
  | _ => (false, s)
  end.

(** An optional exponent part: the indicator, an optional sign and digits;
    without at least one digit the indicator is not part of the literal. *)
Definition exponentPart (s : string) : Z * string :=
  match s with
  | String c s' =>
      if (Ascii.eqb c "e" || Ascii.eqb c "E")%bool then
        let '(neg, s'') := sign s' in
        match digits 0 0 s'' with
        | (_, O, _) => (0%Z, s)
        | (e, S _, rest) => (cond_Zopp neg (Z.of_N e), rest)
        end
      else (0%Z, s)
  | EmptyString => (0%Z, s)
  end.

(** *** [parseFloat]

    Leading white space is skipped, the longest prefix that is a
    [StrDecimalLiteral] is read and converted; [NaN] when there is none. *)
Definition parseUnsigned (neg : bool) (s : string) : number :=
  if String.prefix "Infinity" s then S754_infinity neg
  else
    let '(ip, ni, s1) := digits 0 0 s in
    let '(m, nf, s2) :=
      match s1 with
      | String "." s1' =>
          let '(m, nf, s2) := digits ip 0 s1' in
          match ni, nf with
          | O, O => (ip, O, s1)
          | _, _ => (m, nf, s2)
          end
      | _ => (ip, O, s1)
      end in
    match ni, nf with
    | O, O => NaN
    | _, _ =>
        let '(e, _) := exponentPart s2 in
        of_decimal neg m (e - Z.of_nat nf)
    end.

Definition parseFloat (s : string) : number :=
  let '(neg, s') := sign (trimStart s) in
  parseUnsigned neg s'.

(** [x >= y] on numbers: false when either is [NaN]. *)
Definition geb (x y : number) : bool := SFleb y x.

(** What a call evaluates to, for the functions of the component: an arrow
    function whose block body returns no value evaluates to [undefined];
    [boolean] is the result a function reporting a truth value would give. *)
Inductive result : Type :=
| undefined
| boolean (b : bool).

(** [Number.prototype.toString] on the integers [Date.now()] returns: plain
    decimal digits, with a leading minus sign below zero. *)
Definition toString (n : Z) : string := pretty n.

End JS.

(** ** [JSON.parse]

    The grammar of ECMA-404 on strings of code units below 256. A result is
    [Ok v] when the text is a JSON value and [SyntaxError] when [JSON.parse]
    throws. [OutOfModel] is returned where the text leaves the embedding: an
    escape of four hexadecimal digits above [00FF], whose code unit no Rocq
    [string] holds. [OutOfFuel] is the result of the recursive descent when
    its fuel is used up, which [parse] never returns ([parse_within_fuel]
    below). *)

Module JSON.

#[warnings="-register-all"]
Inductive value : Type :=
| Null
| Bool (b : bool)
| Number (n : JS.number)
| Str (s : string)
| Array (vs : list value)
| Object (ps : list (string * value)).

Inductive outcome (A : Type) : Type :=
| Ok (a : A)
| SyntaxError
| OutOfModel
| OutOfFuel.
Arguments Ok {A} a.
Arguments SyntaxError {A}.
Arguments OutOfModel {A}.
Arguments OutOfFuel {A}.

Definition bind {A B} (x : outcome A) (f : A -> outcome B) : outcome B :=
  match x with
  | Ok a => f a
  | SyntaxError => SyntaxError
  | OutOfModel => OutOfModel
  | OutOfFuel => OutOfFuel
  end.

Notation "'try' p := x 'in' k" := (bind x (fun p => k))
  (at level 10, p pattern, x at level 100, k at level 200).

Definition quote : ascii := "034"%char.
Definition backslash : ascii := "092"%char.

(** JSON white space: TAB, LF, CR and SP. *)
Definition isSpace (c : ascii) : bool :=
  let n := N_of_ascii c in
  ((n =? 9) || (n =? 10) || (n =? 13) || (n =? 32))%N.

Fixpoint skip (s : string) : string :=
  match s with
  | String c s' => if isSpace c then skip s' else s
  | EmptyString => s
  end.

Definition hex (c : ascii) : option N :=
  let n := N_of_ascii c in
  if ((48 <=? n) && (n <=? 57))%N then Some (n - 48)%N
  else if ((65 <=? n) && (n <=? 70))%N then Some (n - 55)%N
  else if ((97 <=? n) && (n <=? 102))%N then Some (n - 87)%N
  else None.

Definition hex4 (a b c d : ascii) : option N :=
  match hex a, hex b, hex c, hex d with
  | Some x, Some y, Some z, Some w => Some (((x * 16 + y) * 16 + z) * 16 + w)%N
  | _, _, _, _ => None
  end.

(** The character a two-character escape denotes. *)
Definition escape (c : ascii) : option ascii :=
  match N_of_ascii c with
  | 34%N => Some quote
  | 92%N => Some backslash
  | 47%N => Some "/"%char
  | 98%N => Some "008"%char
  | 102%N => Some "012"%char
  | 110%N => Some "010"%char
  | 114%N => Some "013"%char
  | 116%N => Some "009"%char
  | _ => None
  end.

(** The characters of a string literal after its opening quote, up to and
    including the closing one. *)
Fixpoint stringBody (s : string) : outcome (string * string) :=
  match s with
  | EmptyString => SyntaxError
  | String c s' =>
      if Ascii.eqb c quote then Ok (EmptyString, s')
      else if Ascii.eqb c backslash then
        match s' with
        | EmptyString => SyntaxError
        | String e s'' =>
            match escape e with
            | Some ch =>
                try (r, rest) := stringBody s'' in Ok (String ch r, rest)
            | None =>
                if Ascii.eqb e "u" then
                  match s'' with
                  | String h1 (String h2 (String h3 (String h4 s3))) =>
                      match hex4 h1 h2 h3 h4 with
                      | Some n =>
                          if (n <? 256)%N then
                            try (r, rest) := stringBody s3 in
                            Ok (String (ascii_of_N n) r, rest)
                          else OutOfModel
                      | None => SyntaxError
                      end
                  | _ => SyntaxError
                  end
                else SyntaxError
            end
        end
      else if (N_of_ascii c <? 32)%N then SyntaxError
      else try (r, rest) := stringBody s' in Ok (String c r, rest)
  end.

(** [strip k s]: what follows [k] in [s], when [s] starts with [k]. *)
Fixpoint strip (k s : string) : option string :=
  match k with
  | EmptyString => Some s
  | String a k' =>
      match s with
      | String b s' => if Ascii.eqb a b then strip k' s' else None
      | EmptyString => None
      end
  end.

(** A number token: an optional minus sign, an integer part without
    superfluous leading zero, an optional fraction of at least one digit and
    an optional exponent of at least one digit. *)
Definition numberToken (s : string) : outcome (JS.number * string) :=
  let '(neg, s0) :=
    match strip "-" s with
    | Some s' => (true, s')
    | None => (false, s)
    end in
  let '(ip, ni, s1) := JS.digits 0 0 s0 in
  match ni with
  | O => SyntaxError
  | S ni' =>
      if (String.prefix "0" s0 && negb (Nat.eqb ni' 0))%bool then SyntaxError
      else
        try (m, nf, s2) :=
          match strip "." s1 with
          | Some s1' =>
              match JS.digits ip 0 s1' with
              | (_, O, _) => SyntaxError
              | r => Ok r
              end
          | None => Ok (ip, O, s1)
          end in
        match s2 with
        | String c s2' =>
            if (Ascii.eqb c "e" || Ascii.eqb c "E")%bool then
              let '(eneg, s3) := JS.sign s2' in
              match JS.digits 0 0 s3 with
              | (_, O, _) => SyntaxError
              | (e, S _, rest) =>
                  Ok (JS.of_decimal neg m
                        (cond_Zopp eneg (Z.of_N e) - Z.of_nat nf), rest)
              end
            else Ok (JS.of_decimal neg m (- Z.of_nat nf), s2)
        | EmptyString => Ok (JS.of_decimal neg m (- Z.of_nat nf), s2)
        end
  end.

(** A literal name. *)
Definition keyword (k : string) (v : value) (s : string) : outcome (value * string) :=
  match strip k s with
  | Some r => Ok (v, r)
  | None => SyntaxError
  end.

(** Values, array elements and object members, by recursive descent. The
    fuel bounds the depth of the calls. *)
Fixpoint parseValue (fuel : nat) (s : string) : outcome (value * string) :=
  match fuel with
  | O => OutOfFuel
  | S fuel =>
      match skip s with
      | EmptyString => SyntaxError
      | String c r as s0 =>
          if Ascii.eqb c "[" then
            match strip "]" (skip r) with
            | Some r' => Ok (Array [], r')
            | None => try (vs, r') := parseElements fuel r in Ok (Array vs, r')
            end
          else if Ascii.eqb c "{" then
            match strip "}" (skip r) with
            | Some r' => Ok (Object [], r')
            | None => try (ps, r') := parseMembers fuel r in Ok (Object ps, r')
            end
          else if Ascii.eqb c quote then
            try (str, r') := stringBody r in Ok (Str str, r')
          else if Ascii.eqb c "n" then keyword "null" Null s0
          else if Ascii.eqb c "t" then keyword "true" (Bool true) s0
          else if Ascii.eqb c "f" then keyword "false" (Bool false) s0
          else try (x, r') := numberToken s0 in Ok (Number x, r')
      end
  end
with parseElements (fuel : nat) (s : string) : outcome (list value * string) :=
  match fuel with
  | O => OutOfFuel
  | S fuel =>
      try (v, r) := parseValue fuel s in
      match strip "," (skip r) with
      | Some r' => try (vs, r'') := parseElements fuel r' in Ok (v :: vs, r'')
      | None =>
          match strip "]" (skip r) with
          | Some r' => Ok ([v], r')
          | None => SyntaxError
          end
      end
  end
with parseMembers (fuel : nat) (s : string) : outcome (list (string * value) * string) :=
  match fuel with
  | O => OutOfFuel
  | S fuel =>
      match strip (String quote EmptyString) (skip s) with
      | Some r =>
          try (k, r1) := stringBody r in
          match strip ":" (skip r1) with
          | Some r2 =>
              try (v, r3) := parseValue fuel r2 in
              match strip "," (skip r3) with
              | Some r4 =>
                  try (ps, r5) := parseMembers fuel r4 in Ok ((k, v) :: ps, r5)
              | None =>
                  match strip "}" (skip r3) with
                  | Some r4 => Ok ([(k, v)], r4)
                  | None => SyntaxError
                  end
              end
          | None => SyntaxError
          end
      | None => SyntaxError
      end
  end.

(** [JSON.parse(text)]: one value, with nothing but white space after it. *)
Definition parse (text : string) : outcome value :=
  try (v, r) := parseValue (2 * String.length text + 2) text in
  match skip r with
  | EmptyString => Ok v
  | String _ _ => SyntaxError
  end.

(** Property lookup on a parsed object: of several members with one key
    the last one is the property's value. *)
Fixpoint get (k : string) (ps : list (string * value)) : option value :=
  match ps with
  | [] => None
  | (k', v) :: ps' =>
      match get k ps' with
      | Some v' => Some v'
      | None => if String.eqb k k' then Some v else None
      end
  end.

(** JSON text written with ['] for the quotation mark. *)
Fixpoint text (s : string) : string :=
  match s with
  | EmptyString => EmptyString
  | String c s' => String (if Ascii.eqb c "'" then quote else c) (text s')
  end.

End JSON.

(** ** The component *)

Module Tracker.

(** [type: 'income' | 'expense'] *)
Inductive TransactionType : Type := income | expense.

Global Instance TransactionType_eq_dec : EqDecision TransactionType.
Proof. solve_decision. Defined.

(** [a === b] on the two type names. *)
Definition type_eqb (a b : TransactionType) : bool :=
  match a, b with
  | income, income | expense, expense => true
  | _, _ => false
  end.

Record Transaction : Type := {
  id : string;
  description : string;
  amount : JS.number;
  type : TransactionType;
  category : string;
  date : string
}.

Global Instance Transaction_eq_dec : EqDecision Transaction.
Proof. solve_decision. Defined.

Definition categories (t : TransactionType) : list string :=
  match t with
  | income => ["Salary"; "Freelance"; "Investment"]
  | expense => ["Food"; "Transport"; "Shopping"; "Entertainment"; "Bills"]
  end.

(** [useState<'all' | 'income' | 'expense'>]: the filter criterion. *)
Inductive Filter : Type :=
| all
| only (t : TransactionType).

Module FormData.
Record t : Type := {
  description : string;
  amount : string;
  type : TransactionType;
  category : string
}.
End FormData.

(** The four [useState] cells. *)
Record State : Type := {
  transactions : list Transaction;
  showModal : bool;
  filter : Filter;
  formData : FormData.t
}.

Definition initialState : State := {|
  transactions := [];
  showModal := false;
  filter := all;
  formData := {| FormData.description := "";
                 FormData.amount := "";
                 FormData.type := expense;
                 FormData.category := "Food" |}
|}.

(** A call of a state setter. A setter called with a value rather than an
    updater is the constant updater. *)
Inductive SetState : Type :=
| setTransactions (f : list Transaction -> list Transaction)
| setShowModal (b : bool)
| setFilter (f : Filter)
| setFormData (f : FormData.t -> FormData.t).

Definition apply (u : SetState) (st : State) : State :=
  match u with
  | setTransactions f =>
      {| transactions := f (transactions st); showModal := showModal st;
         filter := filter st; formData := formData st |}
  | setShowModal b =>
      {| transactions := transactions st; showModal := b;
         filter := filter st; formData := formData st |}
  | setFilter f =>
      {| transactions := transactions st; showModal := showModal st;
         filter := f; formData := formData st |}
  | setFormData f =>
      {| transactions := transactions st; showModal := showModal st;
         filter := filter st; formData := f (formData st) |}
  end.

Definition applyAll (us : list SetState) (st : State) : State :=
  fold_left (fun s u => apply u s) us st.

(** What running a handler amounts to: the value the call evaluates to and
    the setter calls it made, in order. *)
Record Handled : Type := {
  returns : JS.result;
  calls : list SetState
}.

(** The clock readings of one [handleSubmit]: [Date.now()] and
    [new Date().toISOString()]. *)
Record Clock : Type := {
  now : Z;
  toISOString : string
}.

(** *** Derivations *)

Module Stats.
Record t : Type := {
  income : JS.number;
  expenses : JS.number;
  balance : JS.number
}.
End Stats.

(** [xs.reduce((sum, t) => sum + t.amount, 0)] *)
Definition sumAmounts (xs : list Transaction) : JS.number :=
  fold_left (fun sum t => JS.add sum (amount t)) xs JS.zero.

Definition calculateStats (transactions : list Transaction) : Stats.t :=
  let income :=
    sumAmounts (List.filter (fun t => type_eqb (type t) income) transactions) in
  let expenses :=
    sumAmounts (List.filter (fun t => type_eqb (type t) expense) transactions) in
  {| Stats.income := income;
     Stats.expenses := expenses;
     Stats.balance := JS.sub income expenses |}.

Definition filteredTransactions
    (transactions : list Transaction) (filter : Filter) : list Transaction :=
  List.filter
    (fun transaction =>
       match filter with
       | all => true
       | only f => type_eqb (type transaction) f
       end)
    transactions.

(** [const stats = calculateStats()] and the list the component renders. *)
Definition stats (st : State) : Stats.t := calculateStats (transactions st).
Definition shown (st : State) : list Transaction :=
  filteredTransactions (transactions st) (filter st).

(** *** Handlers *)

Definition handleSubmit (clock : Clock) (formData : FormData.t) : Handled :=
  if (negb (JS.truthy (JS.trim (FormData.description formData)))
      || negb (JS.truthy (FormData.amount formData)))%bool
  then {| returns := JS.undefined; calls := [] |}
  else
    let newTransaction := {|
      id := JS.toString (now clock);
      description := JS.trim (FormData.description formData);
      amount := JS.parseFloat (FormData.amount formData);
      type := FormData.type formData;
      category := FormData.category formData;
      date := toISOString clock
    |} in
    {| returns := JS.undefined;
       calls := [ setTransactions (fun prev => newTransaction :: prev);
                  setFormData (fun _ =>
                    {| FormData.description := "";
                       FormData.amount := "";
                       FormData.type := expense;
                       FormData.category := "Food" |});
                  setShowModal false ] |}.

Definition deleteTransaction (id0 : string) : Handled :=
  {| returns := JS.undefined;
     calls := [ setTransactions (fun prev =>
                  List.filter (fun t => negb (String.eqb (id t) id0)) prev) ] |}.

(** *** Effects *)

(** [categories[formData.type][0]]; both lists are literals with a first
    element. *)
Definition firstCategory (t : TransactionType) : string :=
  hd EmptyString (categories t).

(** The effect on [formData.type]. *)
Definition categoryEffect (formData : FormData.t) : list SetState :=
  let newCategory := firstCategory (FormData.type formData) in
  [ setFormData (fun prev =>
      {| FormData.description := FormData.description prev;
         FormData.amount := FormData.amount prev;
         FormData.type := FormData.type prev;
         FormData.category := newCategory |}) ].

(** The state the component settles in when a handler's setter calls are
    applied to [st]: the batch is applied, and the category effect runs
    once if the render sees another [formData.type] than the previous
    one. Without a setter call nothing is rendered. *)
Definition rerender (st : State) (us : list SetState) : State :=
  let st' := applyAll us st in
  if type_eqb (FormData.type (formData st')) (FormData.type (formData st))
  then st'
  else applyAll (categoryEffect (formData st')) st'.

Definition perform (h : Handled) (st : State) : State := rerender st (calls h).

(** *** User events, with the handler each one is wired to *)

Inductive Event : Type :=
| ClickAdd
| ClickClose
| ClickFilter (f : Filter)
| ChangeDescription (value : string)
| ChangeAmount (value : string)
| ClickType (t : TransactionType)
| ChangeCategory (value : string)
| Submit (clock : Clock)
| ClickDelete (id0 : string).

Definition withDescription (v : string) (prev : FormData.t) : FormData.t :=
  {| FormData.description := v;
     FormData.amount := FormData.amount prev;
     FormData.type := FormData.type prev;
     FormData.category := FormData.category prev |}.

Definition withAmount (v : string) (prev : FormData.t) : FormData.t :=
  {| FormData.description := FormData.description prev;
     FormData.amount := v;
     FormData.type := FormData.type prev;
     FormData.category := FormData.category prev |}.

Definition withType (v : TransactionType) (prev : FormData.t) : FormData.t :=
  {| FormData.description := FormData.description prev;
     FormData.amount := FormData.amount prev;
     FormData.type := v;
     FormData.category := FormData.category prev |}.

Definition withCategory (v : string) (prev : FormData.t) : FormData.t :=
  {| FormData.description := FormData.description prev;
     FormData.amount := FormData.amount prev;
     FormData.type := FormData.type prev;
     FormData.category := v |}.

Definition handle (ev : Event) (st : State) : Handled :=
  match ev with
  | ClickAdd => {| returns := JS.undefined; calls := [setShowModal true] |}
  | ClickClose => {| returns := JS.undefined; calls := [setShowModal false] |}
  | ClickFilter f => {| returns := JS.undefined; calls := [setFilter f] |}
  | ChangeDescription v =>
      {| returns := JS.undefined; calls := [setFormData (withDescription v)] |}
  | ChangeAmount v =>
      {| returns := JS.undefined; calls := [setFormData (withAmount v)] |}
  | ClickType t =>
      {| returns := JS.undefined; calls := [setFormData (withType t)] |}
  | ChangeCategory v =>
      {| returns := JS.undefined; calls := [setFormData (withCategory v)] |}
  | Submit clock => handleSubmit clock (formData st)
  | ClickDelete id0 => deleteTransaction id0
  end.

(** What the rendered page offers: the form's controls exist while the
    modal is shown, the category [select] offers the categories of the
    form's current type, and there is a delete button for each listed
    transaction. *)
Definition offered (st : State) (ev : Event) : Prop :=
  match ev with
  | ClickAdd | ClickFilter _ => True
  | ClickClose | ChangeDescription _ | ChangeAmount _ | ClickType _ | Submit _ =>
      showModal st = true
  | ChangeCategory v =>
      showModal st = true /\ In v (categories (FormData.type (formData st)))
  | ClickDelete id0 => In id0 (map id (shown st))
  end.

Definition step (ev : Event) (st : State) : State := perform (handle ev st) st.

Definition run (evs : list Event) (st : State) : State :=
  fold_left (fun s ev => step ev s) evs st.

(** Every event of the trace is offered by the page it happens on. *)
Fixpoint offeredAll (evs : list Event) (st : State) : Prop :=
  match evs with
  | [] => True
  | ev :: evs' => offered st ev /\ offeredAll evs' (step ev st)
  end.

(** *** What the page renders from the state *)

(** [filteredTransactions.length === 0]: the notice "No transactions yet" is
    rendered in place of the list. *)
Definition showsEmptyNotice (st : State) : bool :=
  Nat.eqb (length (shown st)) 0.

(** The class of the balance figure:
    [stats.balance >= 0 ? 'text-income' : 'text-expense']. *)
Definition balanceClass (st : State) : string :=
  if JS.geb (Stats.balance (stats st)) JS.zero then "text-income" else "text-expense".

(** *** The durable slot *)

Definition slot : string := "financeTracker".

(** What the load effect does. *)
Inductive LoadOutcome : Type :=
| NoUpdate                          (* no setter call: the store stays [[]] *)
| Stored (v : JSON.value)           (* [setTransactions(JSON.parse(saved))] *)
| Uncaught                          (* the [SyntaxError] leaves the effect *)
| LoadOutOfModel.

Definition loadEffect (localStorage : gmap string string) : LoadOutcome :=
  match localStorage !! slot with
  | None => NoUpdate
  | Some saved =>
      if JS.truthy saved then
        match JSON.parse saved with
        | JSON.Ok v => Stored v
        | JSON.SyntaxError => Uncaught
        | JSON.OutOfModel | JSON.OutOfFuel => LoadOutOfModel
        end
      else NoUpdate
  end.

(** The shape [Transaction[]] of a parsed value: an array of objects with
    the six properties at their types. *)
Definition asString (v : JSON.value) : option string :=
  match v with JSON.Str s => Some s | _ => None end.

Definition asNumber (v : JSON.value) : option JS.number :=
  match v with JSON.Number n => Some n | _ => None end.

Definition asType (v : JSON.value) : option TransactionType :=
  match v with
  | JSON.Str s =>
      if String.eqb s "income" then Some income
      else if String.eqb s "expense" then Some expense
      else None
  | _ => None
  end.

Definition asTransaction (v : JSON.value) : option Transaction :=
  match v with
  | JSON.Object ps =>
      i ← JSON.get "id" ps ≫= asString;
      d ← JSON.get "description" ps ≫= asString;
      a ← JSON.get "amount" ps ≫= asNumber;
      t ← JSON.get "type" ps ≫= asType;
      c ← JSON.get "category" ps ≫= asString;
      w ← JSON.get "date" ps ≫= asString;
      Some {| id := i; description := d; amount := a; type := t;
              category := c; date := w |}
  | _ => None
  end.

Definition asTransactions (v : JSON.value) : option (list Transaction) :=
  match v with
  | JSON.Array vs => mapM asTransaction vs
  | _ => None
  end.

(** The store the component starts from, when the load leaves one of the
    declared shape. *)
Definition loaded (o : LoadOutcome) : option (list Transaction) :=
  match o with
  | NoUpdate => Some []
  | Stored v => asTransactions v
  | Uncaught | LoadOutOfModel => None
  end.

(** *** Write-through *)

Section Persistence.

(** [JSON.stringify] on a store. *)
Variable JSON_stringify : list Transaction -> string.

Record Component : Type := {
  state : State;
  localStorage : gmap string string
}.

Definition isSetTransactions (u : SetState) : bool :=
  match u with
  | setTransactions _ => true
  | _ => false
  end.

(** The effect on [transactions]: it runs after a render that follows a
    [setTransactions] call, each of which passes a new array. *)
Definition saveEffect (st : State) (ls : gmap string string) : gmap string string :=
  <[ slot := JSON_stringify (transactions st) ]> ls.

Definition dispatch (ev : Event) (c : Component) : Component :=
  let h := handle ev (state c) in
  let st' := perform h (state c) in
  {| state := st';
     localStorage :=
       if existsb isSetTransactions (calls h)
       then saveEffect st' (localStorage c)
       else localStorage c |}.

Definition dispatchAll (evs : list Event) (c : Component) : Component :=
  fold_left (fun c ev => dispatch ev c) evs c.

(** Mounting the component on a storage, once. The first render has the
    initial state; its effects run in the order they are declared: the load
    effect reads the slot and calls [setTransactions] when something is
    saved, the save effect writes the store of that first render (the empty
    one), the category effect sets the form's category. When the load called
    [setTransactions], the next render has the loaded store and the save
    effect runs again on it. [None] where the load throws, leaves the
    embedding or stores a value that is not of the type [Transaction[]]. *)
Definition mount (ls : gmap string string) : option Component :=
  match loadEffect ls with
  | NoUpdate =>
      Some {| state := applyAll (categoryEffect (formData initialState)) initialState;
              localStorage := saveEffect initialState ls |}
  | Stored v =>
      match asTransactions v with
      | Some ts =>
          let st := applyAll (setTransactions (fun _ => ts)
                              :: categoryEffect (formData initialState)) initialState in
          Some {| state := st;
                  localStorage := saveEffect st (saveEffect initialState ls) |}
      | None => None
      end
  | Uncaught | LoadOutOfModel => None
  end.

End Persistence.

End Tracker.

(** ** Specification-side definitions and sample data *)

Import Tracker.

(** The sum of [amount] over the entries of type [ty]: the amounts are added
    to [sum] one by one in store order, with the addition of numbers. *)
Fixpoint total (ty : TransactionType) (sum : JS.number) (ts : list Transaction)
    : JS.number :=
  match ts with
  | [] => sum
  | t :: ts' =>
      total ty (if decide (type t = ty) then JS.add sum (amount t) else sum) ts'
  end.

(** A category of the set that goes with the transaction's type. *)
Definition wellCategorised (t : Transaction) : Prop :=
  In (category t) (categories (type t)).

(** The form holds a category of its current type. *)
Definition formPaired (fd : FormData.t) : Prop :=
  In (FormData.category fd) (categories (FormData.type fd)).

(** Every [Submit] of the trace reads a clock value whose decimal string is
    not the id of an entry stored at that moment. *)
Fixpoint freshClock (evs : list Event) (st : State) : Prop :=
  match evs with
  | [] => True
  | ev :: evs' =>
      match ev with
      | Submit clock => ~ In (JS.toString (now clock)) (map id (transactions st))
      | _ => True
      end /\ freshClock evs' (step ev st)
  end.

(** The content is the JSON text of a sequence of [Transaction] records. *)
Definition parseable (content : string) : Prop :=
  exists v ts, JSON.parse content = JSON.Ok v /\ asTransactions v = Some ts.

(** What a parsing function gives when it has not run out of fuel: a result
    other than [OutOfFuel], with a shorter rest when it is a value. *)
Definition settled {A : Type} (s : string) (o : JSON.outcome (A * string)) : Prop :=
  match o with
  | JSON.Ok (_, r) => String.length r < String.length s
  | JSON.SyntaxError | JSON.OutOfModel => True
  | JSON.OutOfFuel => False
  end.

(** The slot holds the serialisation of the component's store. *)
Definition inSync (JSON_stringify : list Transaction -> string) (c : Component) : Prop :=
  localStorage c !! slot = Some (JSON_stringify (transactions (state c))).

(** A description as [handleSubmit] stores it: not empty, and with no white
    space at either end. *)
Definition trimmed (s : string) : Prop := s <> "" /\ JS.trim s = s.

(** The criterion lets the transaction through. *)
Definition passes (f : Filter) (t : Transaction) : Prop :=
  match f with
  | all => True
  | only ty => type t = ty
  end.

(** The clock readings of the submissions of a trace, as ids. *)
Fixpoint submittedIds (evs : list Event) : list string :=
  match evs with
  | [] => []
  | Submit clock :: evs' => JS.toString (now clock) :: submittedIds evs'
  | _ :: evs' => submittedIds evs'
  end.

(** The event leaves the store alone by its kind. *)
Definition keepsStore (ev : Event) : bool :=
  match ev with
  | Submit _ | ClickDelete _ => false
  | _ => true
  end.

(** Zero with the positive sign, a positive finite number or positive
    infinity. *)
Definition notNegative (x : JS.number) : Prop :=
  match x with
  | S754_zero false | S754_finite false _ _ | S754_infinity false => True
  | _ => False
  end.

(** The transaction [handleSubmit] builds from a form at a clock reading. *)
Definition entryOf (clock : Clock) (fd : FormData.t) : Transaction :=
  {| id := JS.toString (now clock);
     description := JS.trim (FormData.description fd);
     amount := JS.parseFloat (FormData.amount fd);
     type := FormData.type fd;
     category := FormData.category fd;
     date := toISOString clock |}.

(** One reading of the clock. *)
Definition reading : Clock :=
  {| now := 1700000000000; toISOString := "2023-11-14T22:13:20.000Z" |}.

(** Two entries are typed in and submitted, both at the clock reading
    [reading]. *)
Definition twoAtOnce : list Event :=
  [ ClickAdd; ChangeDescription "Tea"; ChangeAmount "2"; Submit reading;
    ClickAdd; ChangeDescription "Bun"; ChangeAmount "1"; Submit reading ].

Definition coffee : Transaction :=
  {| id := "1"; description := "Coffee"; amount := JS.parseFloat "4.50";
     type := expense; category := "Food";
     date := "2024-01-01T00:00:00.000Z" |}.

Definition salary : Transaction :=
  {| id := "2"; description := "Pay"; amount := JS.parseFloat "1000";
     type := income; category := "Salary";
     date := "2024-01-02T00:00:00.000Z" |}.

Definition withStore (ts : list Transaction) : State :=
  apply (setTransactions (fun _ => ts)) initialState.

(** ** Properties *)

(** *** The parser stays within its fuel *)

Lemma skip_length (s : string) : String.length (JSON.skip s) <= String.length s.
Proof.
  induction s as [|c s IH]; simpl; [lia|].
  destruct (JSON.isSpace c); simpl; lia.
Qed.

Lemma strip_length (k : string) :
  forall s r, JSON.strip k s = Some r ->
  String.length r + String.length k = String.length s.
Proof.
  induction k as [|a k IH]; intros s r H; simpl in H.
  - inversion H; subst. simpl. lia.
  - destruct s as [|b s]; [discriminate|].
    destruct (Ascii.eqb a b); [|discriminate].
    apply IH in H. simpl. lia.
Qed.

Lemma digits_length (s : string) :
  forall acc c v k r, JS.digits acc c s = (v, k, r) ->
  String.length r + k = String.length s + c.
Proof.
  induction s as [|a s IH]; intros acc c v k r H; simpl in H.
  - inversion H; subst. simpl. lia.
  - destruct (JS.digit a).
    + apply IH in H. simpl. lia.
    + inversion H; subst. simpl. lia.
Qed.

Lemma sign_length (s : string) (neg : bool) (r : string) :
  JS.sign s = (neg, r) -> String.length r <= String.length s.
Proof.
  destruct s as [|[[] [] [] [] [] [] [] []] s]; simpl; intros H;
    inversion H; subst; simpl; lia.
Qed.

Lemma settled_map {A B : Type} (s s' : string) (o : JSON.outcome (A * string))
    (g : A -> B) :
  settled s' o -> String.length s' <= String.length s ->
  settled s (JSON.bind o (fun '(x, r) => JSON.Ok (g x, r))).
Proof. destruct o as [[x r]| | |]; simpl; intros; try done. lia. Qed.

Lemma stringBody_settled (n : nat) :
  forall s, String.length s <= n -> settled s (JSON.stringBody s).
Proof.
  induction n as [|n IH]; intros s Hn.
  - destruct s; simpl in *; [done|lia].
  - destruct s as [|c s]; simpl; [done|]. simpl in Hn.
    destruct (Ascii.eqb c JSON.quote); [simpl; lia|].
    destruct (Ascii.eqb c JSON.backslash).
    + destruct s as [|e s]; [done|]. simpl in Hn.
      destruct (JSON.escape e).
      * apply (settled_map _ s); [apply IH; lia|simpl; lia].
      * destruct (Ascii.eqb e "u"); [|done].
        destruct s as [|h1 [|h2 [|h3 [|h4 s]]]]; try done. simpl in Hn.
        destruct (JSON.hex4 h1 h2 h3 h4); [|done].
        destruct (_ <? _)%N; [|done].
        apply (settled_map _ s); [apply IH; lia|simpl; lia].
    + destruct (_ <? _)%N; [done|].
      apply (settled_map _ s); [apply IH; lia|simpl; lia].
Qed.

Lemma fraction_length (ip : N) (s1 : string) (m : N) (nf : nat) (s2 : string) :
  match JSON.strip "." s1 with
  | Some s1' =>
      match JS.digits ip 0 s1' with
      | (_, O, _) => JSON.SyntaxError
      | r => JSON.Ok r
      end
  | None => JSON.Ok (ip, O, s1)
  end = JSON.Ok (m, nf, s2) ->
  String.length s2 <= String.length s1.
Proof.
  intros E. destruct (JSON.strip "." s1) as [s1'|] eqn:Ed.
  - apply strip_length in Ed. simpl in Ed.
    destruct (JS.digits ip 0 s1') as [[m' nf'] s2'] eqn:E2.
    apply digits_length in E2.
    destruct nf'; [discriminate|]. inversion E; subst. lia.
  - inversion E; subst. lia.
Qed.

Lemma fraction_fuel (ip : N) (s1 : string) :
  match JSON.strip "." s1 with
  | Some s1' =>
      match JS.digits ip 0 s1' with
      | (_, O, _) => JSON.SyntaxError
      | r => JSON.Ok r
      end
  | None => JSON.Ok (ip, O, s1)
  end <> JSON.OutOfFuel.
Proof.
  destruct (JSON.strip "." s1) as [s1'|]; [|done].
  destruct (JS.digits ip 0 s1') as [[m' nf'] s2']. by destruct nf'.
Qed.

Lemma numberToken_settled (s : string) : settled s (JSON.numberToken s).
Proof.
  unfold JSON.numberToken.
  assert (Hs0 : exists neg s0, match JSON.strip "-" s with
                               | Some s' => (true, s')
                               | None => (false, s)
                               end = (neg, s0)
                               /\ String.length s0 <= String.length s).
  { destruct (JSON.strip "-" s) as [s'|] eqn:E.
    - apply strip_length in E. simpl in E. exists true, s'. split; [done|lia].
    - exists false, s. split; [done|lia]. }
  destruct Hs0 as (neg & s0 & E0 & L0). rewrite E0.
  destruct (JS.digits 0 0 s0) as [[ip ni] s1] eqn:E1.
  apply digits_length in E1.
  destruct ni as [|ni']; [done|].
  destruct (_ && _)%bool; [done|].
  pose proof (fraction_fuel ip s1) as Hfuel.
  destruct (match JSON.strip "." s1 with Some _ => _ | None => _ end)
    as [[[m nf] s2]| | |] eqn:E2; simpl; try done.
  apply fraction_length in E2.
  destruct s2 as [|c s2'].
  - simpl in *. lia.
  - destruct (_ || _)%bool.
    + destruct (JS.sign s2') as [eneg s3] eqn:E3. apply sign_length in E3.
      destruct (JS.digits 0 0 s3) as [[e ne] rest] eqn:E4.
      apply digits_length in E4.
      destruct ne; [done|]. simpl in *. lia.
    + simpl in *. lia.
Qed.

Lemma keyword_settled (a : ascii) (k : string) (v : JSON.value) (s : string) :
  settled s (JSON.keyword (String a k) v s).
Proof.
  unfold JSON.keyword.
  destruct (JSON.strip (String a k) s) as [r'|] eqn:E; [|done].
  apply strip_length in E. simpl in *. lia.
Qed.

#[local] Arguments JSON.strip : simpl never.
#[local] Arguments JSON.keyword : simpl never.
#[local] Arguments JSON.numberToken : simpl never.

(** With fuel for twice the length of the text, the descent settles. *)
Lemma descent_within_fuel (n : nat) :
  (forall s, 2 * String.length s + 1 <= n -> settled s (JSON.parseValue n s)) /\
  (forall s, 2 * String.length s + 2 <= n -> settled s (JSON.parseElements n s)) /\
  (forall s, 2 * String.length s + 2 <= n -> settled s (JSON.parseMembers n s)).
Proof.
  induction n as [|n (IHv & IHe & IHm)].
  { repeat split; intros s Hn; lia. }
  repeat split; intros s Hn; simpl.
  - pose proof (skip_length s) as Hskip.
    destruct (JSON.skip s) as [|c r] eqn:Es; [done|]. simpl in Hskip.
    destruct (Ascii.eqb c "[").
    { destruct (JSON.strip "]" (JSON.skip r)) as [r'|] eqn:E.
      - apply strip_length in E. pose proof (skip_length r). simpl in *. lia.
      - apply (settled_map _ r); [apply IHe|]; lia. }
    destruct (Ascii.eqb c "{").
    { destruct (JSON.strip "}" (JSON.skip r)) as [r'|] eqn:E.
      - apply strip_length in E. pose proof (skip_length r). simpl in *. lia.
      - apply (settled_map _ r); [apply IHm|]; lia. }
    destruct (Ascii.eqb c JSON.quote).
    { apply (settled_map _ r); [by apply (stringBody_settled (String.length r))|lia]. }
    assert (Hkw : forall a k v, settled s (JSON.keyword (String a k) v (String c r))).
    { intros a k v. pose proof (keyword_settled a k v (String c r)) as H.
      destruct (JSON.keyword (String a k) v (String c r)) as [[? ?]| | |];
        simpl in *; try done. lia. }
    destruct (Ascii.eqb c "n"); [apply Hkw|].
    destruct (Ascii.eqb c "t"); [apply Hkw|].
    destruct (Ascii.eqb c "f"); [apply Hkw|].
    apply (settled_map _ (String c r)); [apply numberToken_settled|simpl; lia].
  - specialize (IHv s). destruct (JSON.parseValue n s) as [[v r]| | |]; simpl;
      try done; try (apply IHv; lia).
    assert (Hr : String.length r < String.length s) by (apply IHv; lia).
    pose proof (skip_length r) as Hskip.
    destruct (JSON.strip "," (JSON.skip r)) as [r'|] eqn:E.
    + apply strip_length in E. simpl in E.
      apply (settled_map _ r'); [apply IHe|]; lia.
    + destruct (JSON.strip "]" (JSON.skip r)) as [r'|] eqn:E'; [|done].
      apply strip_length in E'. simpl in *. lia.
  - pose proof (skip_length s) as Hskip.
    destruct (JSON.strip (String JSON.quote "") (JSON.skip s)) as [r|] eqn:E; [|done].
    apply strip_length in E. simpl in E.
    pose proof (stringBody_settled _ r (le_n _)) as Hk.
    destruct (JSON.stringBody r) as [[k r1]| | |]; simpl in *; try done.
    pose proof (skip_length r1) as Hskip1.
    destruct (JSON.strip ":" (JSON.skip r1)) as [r2|] eqn:E2; [|done].
    apply strip_length in E2. simpl in E2.
    specialize (IHv r2).
    destruct (JSON.parseValue n r2) as [[v r3]| | |]; simpl;
      try done; try (apply IHv; lia).
    assert (Hr3 : String.length r3 < String.length r2) by (apply IHv; lia).
    pose proof (skip_length r3) as Hskip3.
    destruct (JSON.strip "," (JSON.skip r3)) as [r4|] eqn:E4.
    + apply strip_length in E4. simpl in E4.
      apply (settled_map _ r4); [apply IHm|]; lia.
    + destruct (JSON.strip "}" (JSON.skip r3)) as [r4|] eqn:E4'; [|done].
      apply strip_length in E4'. simpl in *. lia.
Qed.

(** [JSON.parse] does not run out of fuel. *)
Lemma parse_within_fuel (text : string) : JSON.parse text <> JSON.OutOfFuel.
Proof.
  unfold JSON.parse.
  pose proof (proj1 (descent_within_fuel (2 * String.length text + 2)) text) as H.
  destruct (JSON.parseValue _ text) as [[v r]| | |]; simpl in *; try done.
  - by destruct (JSON.skip r).
  - intros _. apply H. lia.
Qed.

(** *** [Array.prototype.filter] *)

Section Filter.

Context {A : Type} (p : A -> bool).

Lemma filter_keeps_order (l : list A) : List.filter p l `sublist_of` l.
Proof.
  induction l as [|x l IH]; simpl.
  - constructor.
  - destruct (p x); by constructor.
Qed.

(** Every subsequence of [l] made of entries that pass the test is a
    subsequence of the result: nothing that passes is dropped, and the
    order of [l] is kept. *)
Lemma filter_greatest (l k : list A) :
  k `sublist_of` l -> Forall (fun x => p x = true) k ->
  k `sublist_of` List.filter p l.
Proof.
  induction 1 as [|x k l Hkl IH|x k l Hkl IH]; intros Hall; simpl.
  - constructor.
  - inversion Hall as [|? ? Hx Hk]; subst. rewrite Hx.
    constructor. by apply IH.
  - destruct (p x); [constructor|]; by apply IH.
Qed.

Lemma filter_all_pass (l : list A) :
  Forall (fun x => p x = true) l -> List.filter p l = l.
Proof.
  induction 1 as [|x l Hx _ IH]; simpl; [done|].
  by rewrite Hx, IH.
Qed.

Lemma filter_count (l : list A) :
  length (List.filter p l) + length (List.filter (fun x => negb (p x)) l)
  = length l.
Proof.
  induction l as [|x l IH]; simpl; [done|].
  destruct (p x); simpl; lia.
Qed.

End Filter.

Lemma type_eqb_eq (a b : TransactionType) : type_eqb a b = true <-> a = b.
Proof. destruct a, b; simpl; split; congruence. Qed.

Lemma type_eqb_refl (a : TransactionType) : type_eqb a a = true.
Proof. by apply type_eqb_eq. Qed.

(** A batch of setter calls that leaves [formData.type] alone triggers no
    category effect. *)
Lemma rerender_same_type (st : State) (us : list SetState) :
  FormData.type (formData (applyAll us st)) = FormData.type (formData st) ->
  rerender st us = applyAll us st.
Proof.
  intros E. unfold rerender. by rewrite E, type_eqb_refl.
Qed.

Lemma perform_delete (id0 : string) (st : State) :
  perform (deleteTransaction id0) st =
  {| transactions :=
       List.filter (fun t => negb (String.eqb (id t) id0)) (transactions st);
     showModal := showModal st;
     filter := filter st;
     formData := formData st |}.
Proof. unfold perform. by rewrite rerender_same_type. Qed.

(** The entries that carry [id0], counted through the test [t.id !== id0]. *)
Lemma removed_count (id0 : string) (ts : list Transaction) :
  length (List.filter (fun t => negb (negb (String.eqb (id t) id0))) ts)
  = count_occ string_dec (map id ts) id0.
Proof.
  induction ts as [|t ts IH]; simpl; [done|].
  destruct (string_dec (id t) id0) as [E|N].
  - apply String.eqb_eq in E. rewrite E. simpl. by rewrite IH.
  - apply String.eqb_neq in N. rewrite N. simpl. exact IH.
Qed.

Lemma count_occ_NoDup_In (x : string) (l : list string) :
  List.NoDup l -> In x l -> count_occ string_dec l x = 1.
Proof.
  intros Hnd Hin.
  pose proof (proj1 (NoDup_count_occ string_dec l) Hnd x) as Hle.
  pose proof (proj1 (count_occ_In string_dec l x) Hin). lia.
Qed.

Lemma sumAmounts_total (ty : TransactionType) (ts : list Transaction) (sum : JS.number) :
  fold_left (fun sum t => JS.add sum (amount t))
    (List.filter (fun t => type_eqb (type t) ty) ts) sum
  = total ty sum ts.
Proof.
  revert sum. induction ts as [|t ts IH]; intros sum; simpl; [done|].
  destruct (decide (type t = ty)) as [E|N].
  - apply type_eqb_eq in E. rewrite E. simpl. apply IH.
  - destruct (type_eqb (type t) ty) eqn:E.
    + apply type_eqb_eq in E. contradiction.
    + apply IH.
Qed.

(** *** The derivations *)

(** C9. [filteredTransactions] with criterion [all] is the whole sequence;
    with criterion [income] or [expense] it is the subsequence of the entries
    of that type: a subsequence of the store in the store's order, made of
    exactly the entries of the type, and containing every subsequence of the
    store made of such entries. *)
Theorem filteredTransactions_subsequence (ts : list Transaction) :
  filteredTransactions ts all = ts /\
  forall ty : TransactionType,
    filteredTransactions ts (only ty) `sublist_of` ts /\
    (forall t, In t (filteredTransactions ts (only ty)) <-> In t ts /\ type t = ty) /\
    (forall k, k `sublist_of` ts -> Forall (fun t => type t = ty) k ->
               k `sublist_of` filteredTransactions ts (only ty)).
Proof.
  split.
  - unfold filteredTransactions. apply filter_all_pass.
    by apply Forall_forall.
  - intros ty. unfold filteredTransactions. split; [|split].
    + apply filter_keeps_order.
    + intros t. rewrite filter_In. by rewrite type_eqb_eq.
    + intros k Hk Hall. apply filter_greatest; [done|].
      eapply Forall_impl; [exact Hall|].
      intros t Ht. by apply type_eqb_eq.
Qed.

(** C7. Whatever the active filter, [calculateStats] gives as [income] the
    sum of the amounts of the income entries of the whole store, as
    [expenses] that of its expense entries, and as [balance] their
    difference; the statistics do not change with the filter. *)
Theorem calculateStats_totals (st : State) (f : Filter) :
  let s := stats (apply (setFilter f) st) in
  Stats.income s = total income JS.zero (transactions st) /\
  Stats.expenses s = total expense JS.zero (transactions st) /\
  Stats.balance s = JS.sub (Stats.income s) (Stats.expenses s) /\
  s = stats st.
Proof.
  simpl. unfold stats, calculateStats, sumAmounts. simpl.
  by rewrite !sumAmounts_total.
Qed.

(** *** Deletion *)

(** C10. [deleteTransaction] keeps the entries whose id differs from its
    argument, each as it was and in the order they had, drops every entry
    with that id, and touches no other cell of the state. *)
Theorem deleteTransaction_frame (id0 : string) (st : State) :
  let st' := perform (deleteTransaction id0) st in
  transactions st' `sublist_of` transactions st /\
  (forall t, In t (transactions st') <-> In t (transactions st) /\ id t <> id0) /\
  (forall k, k `sublist_of` transactions st -> Forall (fun t => id t <> id0) k ->
             k `sublist_of` transactions st') /\
  showModal st' = showModal st /\ filter st' = filter st /\
  formData st' = formData st.
Proof.
  simpl. rewrite perform_delete. simpl. repeat split; try done.
  - apply filter_keeps_order.
  - apply filter_In in H. tauto.
  - apply filter_In in H as [_ H]. apply negb_true_iff, String.eqb_neq in H.
    done.
  - intros [Hin Hne]. apply filter_In. split; [done|].
    by apply negb_true_iff, String.eqb_neq.
  - intros k Hk Hall. apply filter_greatest; [done|].
    eapply Forall_impl; [exact Hall|].
    intros t Ht. by apply negb_true_iff, String.eqb_neq.
Qed.

Lemma delete_length (id0 : string) (ts : list Transaction) :
  length (List.filter (fun t => negb (String.eqb (id t) id0)) ts)
  + count_occ string_dec (map id ts) id0 = length ts.
Proof. rewrite <- removed_count. apply filter_count. Qed.

Lemma delete_no_id (id0 : string) (ts : list Transaction) :
  ~ In id0 (map id (List.filter (fun t => negb (String.eqb (id t) id0)) ts)).
Proof.
  rewrite in_map_iff. intros (t & E & Hin).
  apply filter_In in Hin as [_ H].
  apply negb_true_iff, String.eqb_neq in H. done.
Qed.

Lemma delete_absent (id0 : string) (ts : list Transaction) :
  ~ In id0 (map id ts) ->
  List.filter (fun t => negb (String.eqb (id t) id0)) ts = ts.
Proof.
  intros Hnot. apply filter_all_pass, Forall_forall. intros t Ht.
  apply negb_true_iff, String.eqb_neq. intros E. apply Hnot.
  rewrite <- E. apply in_map. by apply list_elem_of_In.
Qed.

(** C6, as the code has it. After [deleteTransaction id0] no entry carries
    [id0], and the list is shorter by the number of entries that carried it:
    by exactly 1 when [id0] was present and the ids of the store are pairwise
    distinct, and not at all (the list is the same) when [id0] was absent. *)
Theorem deleteTransaction_length (id0 : string) (st : State) :
  let ts := transactions st in
  let ts' := transactions (perform (deleteTransaction id0) st) in
  ~ In id0 (map id ts') /\
  length ts' + count_occ string_dec (map id ts) id0 = length ts /\
  (List.NoDup (map id ts) -> In id0 (map id ts) -> length ts' + 1 = length ts) /\
  (~ In id0 (map id ts) -> ts' = ts).
Proof.
  simpl. rewrite perform_delete. simpl. split; [|split; [|split]].
  - apply delete_no_id.
  - apply delete_length.
  - intros Hnd Hin. rewrite <- (count_occ_NoDup_In id0 _ Hnd Hin) at 1.
    apply delete_length.
  - apply delete_absent.
Qed.

Lemma deleteTransaction_length_witness :
  let st := withStore [coffee; salary] in
  List.NoDup (map id (transactions st)) /\ In "1" (map id (transactions st)) /\
  length (transactions (perform (deleteTransaction "1") st)) + 1
  = length (transactions st).
Proof.
  assert (Hnd : List.NoDup (map id (transactions (withStore [coffee; salary])))).
  { simpl. repeat constructor; simpl; intuition discriminate. }
  assert (Hin : In "1" (map id (transactions (withStore [coffee; salary])))).
  { simpl. by left. }
  split; [exact Hnd|]. split; [exact Hin|].
  exact (proj1 (proj2 (proj2 (deleteTransaction_length "1" (withStore [coffee; salary])))) Hnd Hin).
Defined.

(** C6 as stated fails on a store the component reaches through events the
    page offers: two entries submitted at one clock reading share their id,
    and deleting by the id of one of them shortens the list by 2. *)
Lemma deleteTransaction_length_counterexample :
  let st := run twoAtOnce initialState in
  let t := {| id := "1700000000000"; description := "Tea";
              amount := JS.parseFloat "2"; type := expense; category := "Food";
              date := "2023-11-14T22:13:20.000Z" |} in
  offeredAll twoAtOnce initialState /\
  In t (transactions st) /\
  length (transactions st) = 2 /\
  length (transactions (perform (deleteTransaction (id t)) st)) = 0.
Proof. vm_compute. intuition. Qed.

(** C4, as the code has it. [deleteTransaction] evaluates to [undefined] for
    every id; whether an entry was removed shows in the store alone, which
    gets shorter exactly when the id was present. *)
Theorem deleteTransaction_returns_undefined (id0 : string) (st : State) :
  returns (deleteTransaction id0) = JS.undefined /\
  (length (transactions (perform (deleteTransaction id0) st))
   < length (transactions st) <-> In id0 (map id (transactions st))).
Proof.
  split; [done|].
  rewrite perform_delete. simpl.
  pose proof (delete_length id0 (transactions st)) as Hlen. split.
  - intros Hlt. destruct (in_dec string_dec id0 (map id (transactions st)))
      as [Hin|Hnot]; [done|].
    rewrite (delete_absent id0 _ Hnot) in Hlt. lia.
  - intros Hin. apply (count_occ_In string_dec) in Hin. lia.
Qed.

(** C4 as stated fails: the entry with id ["1"] is removed and the call does
    not evaluate to [true]; for the absent id ["9"] it does not evaluate to
    [false]. *)
Lemma deleteTransaction_returns_counterexample :
  let st := withStore [coffee] in
  In "1" (map id (transactions st)) /\
  transactions (perform (deleteTransaction "1") st) = [] /\
  returns (deleteTransaction "1") <> JS.boolean true /\
  ~ In "9" (map id (transactions st)) /\
  returns (deleteTransaction "9") <> JS.boolean false.
Proof. vm_compute. intuition discriminate. Qed.

(** *** Adding *)

Lemma rerender_transactions (st : State) (us : list SetState) :
  transactions (rerender st us) = transactions (applyAll us st).
Proof.
  unfold rerender.
  by destruct (type_eqb _ _).
Qed.

Lemma truthy_nonempty (s : string) : JS.truthy s = true <-> s <> "".
Proof. destruct s; simpl; split; congruence. Qed.

Lemma truthy_empty (s : string) : JS.truthy s = false <-> s = "".
Proof. destruct s; simpl; split; congruence. Qed.

(** An amount string that parses to a positive finite number is not empty:
    [parseFloat("")] is [NaN]. *)
Lemma positive_amount_nonempty (s : string) :
  JS.positive_finite (JS.parseFloat s) = true -> s <> "".
Proof. intros H ->. vm_compute in H. discriminate. Qed.

(** C8, as the code has it. On a form with a description that is not empty
    after trimming, an amount that parses to a positive finite number and a
    category of the form's type, submitting puts the new transaction (the
    decimal string of [Date.now()] as id, the trimmed description, the
    parsed amount, the form's type and category, the date from the clock) in
    front of the previous entries, which follow unchanged; the list is
    longer by exactly 1. The id of the new entry differs from the id of
    every previous entry exactly when the string of the clock reading is
    not yet an id of the store; in a store of pairwise distinct ids that is
    also exactly when the ids stay pairwise distinct. *)
Theorem handleSubmit_prepends (clock : Clock) (st : State) :
  JS.trim (FormData.description (formData st)) <> "" ->
  JS.positive_finite (JS.parseFloat (FormData.amount (formData st))) = true ->
  In (FormData.category (formData st)) (categories (FormData.type (formData st))) ->
  transactions (step (Submit clock) st)
  = {| id := JS.toString (now clock);
       description := JS.trim (FormData.description (formData st));
       amount := JS.parseFloat (FormData.amount (formData st));
       type := FormData.type (formData st);
       category := FormData.category (formData st);
       date := toISOString clock |} :: transactions st /\
  length (transactions (step (Submit clock) st)) = S (length (transactions st)) /\
  ((forall t, In t (transactions st) -> id t <> JS.toString (now clock)) <->
   ~ In (JS.toString (now clock)) (map id (transactions st))) /\
  (List.NoDup (map id (transactions st)) ->
   (List.NoDup (map id (transactions (step (Submit clock) st))) <->
    ~ In (JS.toString (now clock)) (map id (transactions st)))).
Proof.
  intros Hd Ha _.
  apply truthy_nonempty in Hd. apply positive_amount_nonempty, truthy_nonempty in Ha.
  assert (E : transactions (step (Submit clock) st)
              = {| id := JS.toString (now clock);
                   description := JS.trim (FormData.description (formData st));
                   amount := JS.parseFloat (FormData.amount (formData st));
                   type := FormData.type (formData st);
                   category := FormData.category (formData st);
                   date := toISOString clock |} :: transactions st).
  { unfold step, perform. rewrite rerender_transactions.
    unfold handle, handleSubmit. by rewrite Hd, Ha. }
  split; [exact E|]. split; [by rewrite E|]. split.
  - split.
    + intros Hall Hin. apply in_map_iff in Hin as (t & Hid & Ht).
      by apply (Hall t Ht).
    + intros Hnot t Ht Hid. apply Hnot. rewrite <- Hid. by apply in_map.
  - intros Hnd. rewrite E. simpl. split.
    + intros H. by inversion H.
    + intros Hnot. by constructor.
Qed.

Lemma handleSubmit_prepends_witness :
  let st := run [ClickAdd; ChangeDescription " Coffee "; ChangeAmount "4.50"]
              (withStore [salary]) in
  JS.trim (FormData.description (formData st)) <> "" /\
  JS.positive_finite (JS.parseFloat (FormData.amount (formData st))) = true /\
  In (FormData.category (formData st)) (categories (FormData.type (formData st))) /\
  transactions (step (Submit reading) st)
  = [ {| id := "1700000000000"; description := "Coffee";
         amount := JS.parseFloat "4.50"; type := expense; category := "Food";
         date := "2023-11-14T22:13:20.000Z" |}; salary ] /\
  List.NoDup (map id (transactions (step (Submit reading) st))).
Proof.
  assert (Hd : JS.trim (FormData.description (formData
            (run [ClickAdd; ChangeDescription " Coffee "; ChangeAmount "4.50"]
               (withStore [salary])))) <> "") by (vm_compute; discriminate).
  assert (Ha : JS.positive_finite (JS.parseFloat (FormData.amount (formData
            (run [ClickAdd; ChangeDescription " Coffee "; ChangeAmount "4.50"]
               (withStore [salary]))))) = true) by (vm_compute; reflexivity).
  assert (Hc : In (FormData.category (formData
            (run [ClickAdd; ChangeDescription " Coffee "; ChangeAmount "4.50"]
               (withStore [salary]))))
          (categories (FormData.type (formData
            (run [ClickAdd; ChangeDescription " Coffee "; ChangeAmount "4.50"]
               (withStore [salary])))))) by (vm_compute; tauto).
  assert (Hnd : List.NoDup (map id (transactions
            (run [ClickAdd; ChangeDescription " Coffee "; ChangeAmount "4.50"]
               (withStore [salary]))))).
  { simpl. repeat constructor. simpl. tauto. }
  assert (Hfresh : ~ In (JS.toString (now reading)) (map id (transactions
            (run [ClickAdd; ChangeDescription " Coffee "; ChangeAmount "4.50"]
               (withStore [salary]))))).
  { vm_compute. intuition discriminate. }
  split; [exact Hd|]. split; [exact Ha|]. split; [exact Hc|].
  split; [exact (proj1 (handleSubmit_prepends reading _ Hd Ha Hc))|].
  exact (proj2 (proj2 (proj2 (proj2 (handleSubmit_prepends reading _ Hd Ha Hc)))
                  Hnd) Hfresh).
Defined.

(** C8 as stated fails: after one entry was submitted at the clock reading
    [reading], a second valid form submitted at the same reading, through
    events the page offers, gets the id the store already holds: the new
    head does not carry a fresh id. *)
Lemma handleSubmit_prepends_counterexample :
  let evs := [ClickAdd; ChangeDescription "Tea"; ChangeAmount "2"; Submit reading;
              ClickAdd; ChangeDescription "Bun"; ChangeAmount "1"] in
  let st := run evs initialState in
  offeredAll (evs ++ [Submit reading])%list initialState /\
  JS.trim (FormData.description (formData st)) <> "" /\
  JS.positive_finite (JS.parseFloat (FormData.amount (formData st))) = true /\
  In (FormData.category (formData st)) (categories (FormData.type (formData st))) /\
  map id (transactions st) = ["1700000000000"] /\
  map id (transactions (step (Submit reading) st))
  = ["1700000000000"; "1700000000000"] /\
  exists new rest,
    transactions (step (Submit reading) st) = new :: rest /\
    In (id new) (map id (transactions st)).
Proof.
  split; [vm_compute; intuition|].
  split; [vm_compute; discriminate|].
  split; [vm_compute; reflexivity|].
  split; [vm_compute; tauto|].
  split; [reflexivity|]. split; [reflexivity|].
  eexists _, _. split; [vm_compute; reflexivity|].
  vm_compute. by left.
Qed.

(** C2, as the code has it. When the description is empty after trimming or
    the amount string is empty, [handleSubmit] calls no setter: submitting
    leaves the whole state, the transaction list included, and the durable
    slot as they were. *)
Theorem handleSubmit_rejects
    (JSON_stringify : list Transaction -> string) (clock : Clock) (c : Component) :
  JS.trim (FormData.description (formData (state c))) = "" \/
  FormData.amount (formData (state c)) = "" ->
  calls (handleSubmit clock (formData (state c))) = [] /\
  dispatch JSON_stringify (Submit clock) c = c.
Proof.
  intros H.
  assert (E : handleSubmit clock (formData (state c))
              = {| returns := JS.undefined; calls := [] |}).
  { unfold handleSubmit. destruct H as [H|H]; apply truthy_empty in H;
      rewrite H; simpl; [done|]. by rewrite orb_true_r. }
  split; [by rewrite E|].
  unfold dispatch. simpl. rewrite E. unfold perform. simpl.
  rewrite rerender_same_type by done. by destruct c.
Qed.

(** A handler that calls [setTransactions] is followed by a write of the
    new store to the slot. *)
Lemma dispatch_saves
    (JSON_stringify : list Transaction -> string) (ev : Event) (c : Component) :
  existsb isSetTransactions (calls (handle ev (state c))) = true ->
  localStorage (dispatch JSON_stringify ev c) !! slot
  = Some (JSON_stringify (transactions (state (dispatch JSON_stringify ev c)))).
Proof.
  intros H. unfold dispatch. simpl. rewrite H. unfold saveEffect.
  apply lookup_insert_eq.
Qed.

Lemma handleSubmit_rejects_witness :
  let c := {| state := run [ClickAdd; ChangeDescription "   "; ChangeAmount "12"]
                         (withStore [coffee]);
              localStorage := {[ slot := "[]" ]} |} in
  JS.trim (FormData.description (formData (state c))) = "" /\
  dispatch (fun _ => "[]") (Submit reading) c = c.
Proof.
  assert (H : JS.trim (FormData.description (formData
            (run [ClickAdd; ChangeDescription "   "; ChangeAmount "12"]
               (withStore [coffee])))) = "") by reflexivity.
  split; [exact H|].
  exact (proj2 (handleSubmit_rejects (fun _ => "[]") reading
           {| state := run [ClickAdd; ChangeDescription "   "; ChangeAmount "12"]
                         (withStore [coffee]);
              localStorage := {[ slot := "[]" ]} |} (or_introl H))).
Defined.

(** C2 as stated fails: the amount string ["0"] does not parse to a positive
    number, and submitting it with a description adds a transaction of
    amount 0 to the list. *)
Lemma handleSubmit_rejects_counterexample :
  let st := run [ClickAdd; ChangeDescription "Coffee"; ChangeAmount "0"] initialState in
  offeredAll [ClickAdd; ChangeDescription "Coffee"; ChangeAmount "0";
              Submit reading] initialState /\
  JS.trim (FormData.description (formData st)) = "Coffee" /\
  JS.positive_finite (JS.parseFloat (FormData.amount (formData st))) = false /\
  transactions st = [] /\
  transactions (step (Submit reading) st)
  = [ {| id := "1700000000000"; description := "Coffee"; amount := JS.zero;
         type := expense; category := "Food";
         date := "2023-11-14T22:13:20.000Z" |} ].
Proof. vm_compute. intuition. Qed.

(** *** The pairing of type and category *)

Lemma firstCategory_paired (t : TransactionType) : In (firstCategory t) (categories t).
Proof. destruct t; simpl; by left. Qed.

Lemma filter_Forall {A} (P : A -> Prop) (p : A -> bool) (l : list A) :
  Forall P l -> Forall P (List.filter p l).
Proof.
  induction 1 as [|x l Hx _ IH]; simpl; [constructor|].
  destruct (p x); [by constructor|done].
Qed.

(** One offered event keeps the store's entries and the form paired. *)
Lemma step_paired (ev : Event) (st : State) :
  Forall wellCategorised (transactions st) -> formPaired (formData st) ->
  offered st ev ->
  Forall wellCategorised (transactions (step ev st)) /\ formPaired (formData (step ev st)).
Proof.
  intros Hts Hfd Hoff. unfold formPaired in *.
  destruct ev as [| |f|v|v|t|v|clock|id0]; unfold step, perform, rerender; simpl.
  1-5: by rewrite type_eqb_refl.
  - destruct (type_eqb t (FormData.type (formData st))) eqn:E; simpl.
    + apply type_eqb_eq in E. subst t. done.
    + split; [done|]. apply firstCategory_paired.
  - rewrite type_eqb_refl. simpl. destruct Hoff as [_ Hv]. done.
  - unfold handleSubmit.
    destruct (negb (JS.truthy (JS.trim (FormData.description (formData st))))
              || negb (JS.truthy (FormData.amount (formData st))))%bool; simpl.
    + by rewrite type_eqb_refl.
    + assert (Hnew : Forall wellCategorised
                (Build_Transaction (JS.toString (now clock))
                   (JS.trim (FormData.description (formData st)))
                   (JS.parseFloat (FormData.amount (formData st)))
                   (FormData.type (formData st))
                   (FormData.category (formData st))
                   (toISOString clock) :: transactions st)).
      { constructor; [exact Hfd|exact Hts]. }
      destruct (FormData.type (formData st)); simpl;
        (split; [exact Hnew|by left]).
  - rewrite type_eqb_refl. simpl. split; [|done]. by apply filter_Forall.
Qed.

(** C3, as the code has it. [handleSubmit] stores the form's type and
    category as they are; the pairing is kept by the form: a change of type
    resets the category to the first one of the new type and the category
    control offers the categories of the current type only. So from a state
    whose entries and form are paired, every sequence of events the page
    offers leads to a store in which every entry has a category of its
    type. *)
Theorem offered_events_keep_pairing (evs : list Event) (st : State) :
  Forall wellCategorised (transactions st) -> formPaired (formData st) ->
  offeredAll evs st ->
  Forall wellCategorised (transactions (run evs st)).
Proof.
  revert st. induction evs as [|ev evs IH]; intros st Hts Hfd Hoff; simpl.
  - exact Hts.
  - destruct Hoff as [Hev Hrest].
    destruct (step_paired ev st Hts Hfd Hev) as [Hts' Hfd'].
    by apply IH.
Qed.

Lemma offered_events_keep_pairing_witness :
  let evs := [ ClickAdd; ClickType income; ChangeCategory "Freelance";
               ChangeDescription "Logo"; ChangeAmount "250"; Submit reading;
               ClickDelete "1" ] in
  let st := withStore [coffee] in
  Forall wellCategorised (transactions st) /\ formPaired (formData st) /\
  offeredAll evs st /\
  Forall wellCategorised (transactions (run evs st)).
Proof.
  assert (Hts : Forall wellCategorised (transactions (withStore [coffee]))).
  { repeat constructor. }
  assert (Hfd : formPaired (formData (withStore [coffee]))).
  { unfold formPaired. simpl. by left. }
  assert (Hoff : offeredAll
            [ ClickAdd; ClickType income; ChangeCategory "Freelance";
              ChangeDescription "Logo"; ChangeAmount "250"; Submit reading;
              ClickDelete "1" ] (withStore [coffee])).
  { vm_compute. intuition. }
  split; [exact Hts|]. split; [exact Hfd|]. split; [exact Hoff|].
  exact (offered_events_keep_pairing _ _ Hts Hfd Hoff).
Defined.

(** C3 as stated fails: given a form of type income with the category
    ["Food"], [handleSubmit] does not reject the pair but stores it. *)
Lemma handleSubmit_pairing_counterexample :
  let fd := {| FormData.description := "Lunch"; FormData.amount := "10";
               FormData.type := income; FormData.category := "Food" |} in
  let st := apply (setFormData (fun _ => fd)) initialState in
  let t := {| id := "1700000000000"; description := "Lunch";
              amount := JS.parseFloat "10"; type := income; category := "Food";
              date := "2023-11-14T22:13:20.000Z" |} in
  ~ In (FormData.category fd) (categories (FormData.type fd)) /\
  transactions (step (Submit reading) st) = [t] /\
  ~ wellCategorised t.
Proof.
  vm_compute. repeat split; try reflexivity; intuition discriminate.
Qed.

(** *** Ids *)

Lemma filter_ids_NoDup (p : Transaction -> bool) (ts : list Transaction) :
  List.NoDup (map id ts) -> List.NoDup (map id (List.filter p ts)).
Proof.
  induction ts as [|t ts IH]; simpl; intros Hnd; [constructor|].
  inversion Hnd as [|? ? Hnotin Hnd']; subst.
  destruct (p t); simpl; [|by apply IH].
  constructor; [|by apply IH].
  intros Hin. apply Hnotin.
  apply in_map_iff in Hin as (t' & E & Hin).
  apply filter_In in Hin as [Hin _].
  apply in_map_iff. by exists t'.
Qed.

Lemma step_ids_NoDup (ev : Event) (st : State) :
  List.NoDup (map id (transactions st)) ->
  match ev with
  | Submit clock => ~ In (JS.toString (now clock)) (map id (transactions st))
  | _ => True
  end ->
  List.NoDup (map id (transactions (step ev st))).
Proof.
  intros Hnd Hfresh. unfold step, perform. rewrite rerender_transactions.
  destruct ev as [| |f|v|v|t|v|clock|id0]; simpl; try exact Hnd.
  - unfold handleSubmit.
    destruct (negb (JS.truthy (JS.trim (FormData.description (formData st))))
              || negb (JS.truthy (FormData.amount (formData st))))%bool; simpl.
    + exact Hnd.
    + by constructor.
  - by apply filter_ids_NoDup.
Qed.

(** C5, as the code has it. The id of a new entry is the decimal string of
    [Date.now()]. From a store with pairwise distinct ids, every sequence of
    events in which each submission reads a clock value whose string is not
    the id of a stored entry leads to a store with pairwise distinct ids. *)
Theorem fresh_clock_distinct_ids (evs : list Event) (st : State) :
  List.NoDup (map id (transactions st)) ->
  freshClock evs st ->
  List.NoDup (map id (transactions (run evs st))).
Proof.
  revert st. induction evs as [|ev evs IH]; intros st Hnd Hfresh; simpl.
  - exact Hnd.
  - destruct Hfresh as [Hev Hrest]. apply IH; [|exact Hrest].
    by apply step_ids_NoDup.
Qed.

Lemma fresh_clock_distinct_ids_witness :
  let later := {| now := 1700000000001; toISOString := "2023-11-14T22:13:20.001Z" |} in
  let evs := [ ClickAdd; ChangeDescription "Tea"; ChangeAmount "2"; Submit reading;
               ClickAdd; ChangeDescription "Bun"; ChangeAmount "1"; Submit later;
               ClickDelete "1" ] in
  let st := withStore [coffee; salary] in
  List.NoDup (map id (transactions st)) /\ freshClock evs st /\
  List.NoDup (map id (transactions (run evs st))).
Proof.
  assert (Hnd : List.NoDup (map id (transactions (withStore [coffee; salary])))).
  { simpl. repeat constructor; simpl; intuition discriminate. }
  assert (Hfresh : freshClock
            [ ClickAdd; ChangeDescription "Tea"; ChangeAmount "2"; Submit reading;
              ClickAdd; ChangeDescription "Bun"; ChangeAmount "1";
              Submit {| now := 1700000000001;
                        toISOString := "2023-11-14T22:13:20.001Z" |};
              ClickDelete "1" ] (withStore [coffee; salary])).
  { vm_compute. intuition discriminate. }
  split; [exact Hnd|]. split; [exact Hfresh|].
  exact (fresh_clock_distinct_ids _ _ Hnd Hfresh).
Defined.

(** C5 as stated fails: from the empty store, two submissions at one clock
    reading give two entries with one id. *)
Lemma distinct_ids_counterexample :
  List.NoDup (map id (transactions initialState)) /\
  offeredAll twoAtOnce initialState /\
  map id (transactions (run twoAtOnce initialState))
  = ["1700000000000"; "1700000000000"] /\
  ~ List.NoDup (map id (transactions (run twoAtOnce initialState))).
Proof.
  split; [constructor|]. split; [vm_compute; intuition|]. split; [reflexivity|].
  intros Hnd. vm_compute in Hnd.
  inversion Hnd as [|? ? Hnotin _]. apply Hnotin. by left.
Qed.

(** *** Loading *)

Lemma loadEffect_absent (ls : gmap string string) :
  ls !! slot = None -> loadEffect ls = NoUpdate.
Proof. intros E. unfold loadEffect. by rewrite E. Qed.

Lemma loadEffect_present (ls : gmap string string) (saved : string) :
  ls !! slot = Some saved ->
  loadEffect ls =
  if JS.truthy saved then
    match JSON.parse saved with
    | JSON.Ok v => Stored v
    | JSON.SyntaxError => Uncaught
    | JSON.OutOfModel | JSON.OutOfFuel => LoadOutOfModel
    end
  else NoUpdate.
Proof. intros E. unfold loadEffect. by rewrite E. Qed.

(** The load leaves the embedding only where [JSON.parse] does. *)
Lemma loadEffect_out_of_model (ls : gmap string string) :
  loadEffect ls = LoadOutOfModel ->
  exists saved, ls !! slot = Some saved /\ JSON.parse saved = JSON.OutOfModel.
Proof.
  unfold loadEffect. destruct (ls !! slot) as [saved|]; [|done].
  destruct (JS.truthy saved); [|done].
  pose proof (parse_within_fuel saved).
  destruct (JSON.parse saved) eqn:E; try done.
  intros _. by exists saved.
Qed.

(** C1, as the code has it. With the slot absent or holding the empty string
    the load leaves the store at the empty sequence. Any other content is
    handed to [JSON.parse] with no handler around it and no check of the
    result: when [JSON.parse] throws, the exception leaves the effect and no
    store results; otherwise the store is set to the parsed value as it is,
    which is a sequence of transactions only if the value has that shape. *)
Theorem loadEffect_cases (ls : gmap string string) :
  (ls !! slot = None \/ ls !! slot = Some "" ->
   loadEffect ls = NoUpdate /\ loaded (loadEffect ls) = Some []) /\
  (forall saved, ls !! slot = Some saved -> saved <> "" ->
     (JSON.parse saved = JSON.SyntaxError ->
      loadEffect ls = Uncaught /\ loaded (loadEffect ls) = None) /\
     (forall v, JSON.parse saved = JSON.Ok v ->
      loadEffect ls = Stored v /\ loaded (loadEffect ls) = asTransactions v)).
Proof.
  split.
  - intros [E|E].
    + by rewrite (loadEffect_absent ls E).
    + by rewrite (loadEffect_present ls "" E).
  - intros saved E Hne. apply truthy_nonempty in Hne.
    rewrite (loadEffect_present ls saved E), Hne.
    split; [intros ->; done|intros v ->; done].
Qed.

Lemma loadEffect_cases_witness :
  let content := JSON.text
    "[{'id':'1','description':'Coffee','amount':4.50,'type':'expense','category':'Food','date':'2024-01-01T00:00:00.000Z'}]" in
  let ls : gmap string string := {[ slot := content ]} in
  ls !! slot = Some content /\ content <> "" /\
  loaded (loadEffect ls) = Some [coffee].
Proof.
  assert (E : ({[ slot := JSON.text
    "[{'id':'1','description':'Coffee','amount':4.50,'type':'expense','category':'Food','date':'2024-01-01T00:00:00.000Z'}]" ]}
      : gmap string string) !! slot = Some (JSON.text
    "[{'id':'1','description':'Coffee','amount':4.50,'type':'expense','category':'Food','date':'2024-01-01T00:00:00.000Z'}]"))
    by (vm_compute; reflexivity).
  assert (N : JSON.text
    "[{'id':'1','description':'Coffee','amount':4.50,'type':'expense','category':'Food','date':'2024-01-01T00:00:00.000Z'}]"
    <> "") by (vm_compute; discriminate).
  split; [exact E|]. split; [exact N|].
  destruct (proj2 (loadEffect_cases _) _ E N) as [_ H].
  destruct (H (JSON.Array [JSON.Object
      [("id", JSON.Str "1"); ("description", JSON.Str "Coffee");
       ("amount", JSON.Number (JS.parseFloat "4.50"));
       ("type", JSON.Str "expense"); ("category", JSON.Str "Food");
       ("date", JSON.Str "2024-01-01T00:00:00.000Z")]])) as [_ H'].
  - vm_compute. reflexivity.
  - rewrite H'. vm_compute. reflexivity.
Defined.

(** C1 as stated fails: the content ["{"] is present and is not the text of
    a sequence of transactions; [JSON.parse] throws on it and the load lets
    the exception through. The content ["{}"] parses, and the store is set to
    the object, not to the empty sequence. *)
Lemma loadEffect_counterexample :
  let ls1 : gmap string string := {[ slot := "{" ]} in
  let ls2 : gmap string string := {[ slot := "{}" ]} in
  ls1 !! slot = Some "{" /\ ~ parseable "{" /\ loadEffect ls1 = Uncaught /\
  ls2 !! slot = Some "{}" /\ ~ parseable "{}" /\
  loadEffect ls2 = Stored (JSON.Object []) /\ loaded (loadEffect ls2) = None.
Proof.
  repeat split; try (vm_compute; reflexivity).
  - intros (v & ts & Hp & _). vm_compute in Hp. discriminate.
  - intros (v & ts & Hp & Hs). vm_compute in Hp.
    injection Hp as <-. discriminate.
Qed.

(** *** The scenarios of the specification, run on the embedding *)

(** Start empty, add "Coffee" 4.50 as an expense in category Food. *)
Example scenario_coffee :
  let st := run [ClickAdd; ChangeDescription "Coffee"; ChangeAmount "4.50";
                 Submit reading] initialState in
  map description (transactions st) = ["Coffee"] /\
  stats st = {| Stats.income := JS.parseFloat "0";
                Stats.expenses := JS.parseFloat "4.5";
                Stats.balance := JS.parseFloat "-4.5" |}.
Proof. vm_compute. split; reflexivity. Qed.

(** Income 1000 (Salary), then expense 200 (Bills). *)
Example scenario_salary_bills :
  let st := run [ClickAdd; ClickType income; ChangeDescription "Pay";
                 ChangeAmount "1000"; Submit reading;
                 ClickAdd; ChangeCategory "Bills"; ChangeDescription "Power";
                 ChangeAmount "200"; Submit reading;
                 ClickFilter (only income)] initialState in
  stats st = {| Stats.income := JS.parseFloat "1000";
                Stats.expenses := JS.parseFloat "200";
                Stats.balance := JS.parseFloat "800" |} /\
  map category (shown st) = ["Salary"].
Proof. vm_compute. split; reflexivity. Qed.

(** Deleting an id that is not in the store changes nothing. *)
Example scenario_delete_nonexistent :
  step (ClickDelete "nonexistent-id") (withStore [coffee; salary])
  = withStore [coffee; salary].
Proof. vm_compute. reflexivity. Qed.

(** Numbers are binary64: 0.1 + 0.2 is the number written
    0.30000000000000004, not the one written 0.3. *)
Example number_addition_rounds :
  JS.add (JS.parseFloat "0.1") (JS.parseFloat "0.2")
  = JS.parseFloat "0.30000000000000004" /\
  JS.add (JS.parseFloat "0.1") (JS.parseFloat "0.2") <> JS.parseFloat "0.3".
Proof. vm_compute. split; [reflexivity|discriminate]. Qed.

Example parseFloat_prefixes :
  JS.parseFloat "  12.5e2xyz" = JS.parseFloat "1250" /\
  JS.parseFloat "abc" = JS.NaN /\
  JS.parseFloat "" = JS.NaN /\
  JS.parseFloat "-5" = SFopp (JS.parseFloat "5") /\
  JS.parseFloat "1e400" = S754_infinity false.
Proof. vm_compute. repeat split. Qed.

(** ** Further properties of the component *)

(** *** More on the derivations *)

Lemma filter_by_type_split (ts : list Transaction) :
  List.filter (fun t => type_eqb (type t) income) ts
  ++ List.filter (fun t => type_eqb (type t) expense) ts ≡ₚ ts.
Proof.
  induction ts as [|t ts IH]; simpl; [done|].
  destruct (type t); simpl.
  - by constructor.
  - rewrite <- Permutation_middle. by constructor.
Qed.

(** X1. The income view and the expense view split the store: together they
    hold the entries of the store, each as often as the store does, and no
    entry is in both. *)
Theorem filters_partition (ts : list Transaction) :
  filteredTransactions ts (only income) ++ filteredTransactions ts (only expense) ≡ₚ ts /\
  length (filteredTransactions ts (only income))
  + length (filteredTransactions ts (only expense)) = length ts /\
  forall t, ~ (In t (filteredTransactions ts (only income)) /\
               In t (filteredTransactions ts (only expense))).
Proof.
  unfold filteredTransactions. split; [apply filter_by_type_split|]. split.
  - rewrite <- length_app. apply Permutation_length, filter_by_type_split.
  - intros t [Hi He]. apply filter_In in Hi as [_ Hi], He as [_ He].
    apply type_eqb_eq in Hi, He. congruence.
Qed.

Lemma filter_filter_same {A} (p : A -> bool) (l : list A) :
  List.filter p (List.filter p l) = List.filter p l.
Proof.
  apply filter_all_pass, Forall_forall. intros x Hx.
  apply list_elem_of_In, filter_In in Hx. tauto.
Qed.

Lemma filter_swap {A} (p q : A -> bool) (l : list A) :
  List.filter p (List.filter q l) = List.filter q (List.filter p l).
Proof.
  induction l as [|x l IH]; simpl; [done|].
  destruct (p x) eqn:Ep, (q x) eqn:Eq; simpl; rewrite ?Ep, ?Eq, ?IH; done.
Qed.

(** X2. Deleting while a filter is active: the view after the deletion is
    the view before it without the entries of that id. *)
Theorem shown_after_delete (id0 : string) (st : State) :
  shown (step (ClickDelete id0) st)
  = List.filter (fun t => negb (String.eqb (id t) id0)) (shown st).
Proof.
  unfold step, shown. simpl. rewrite perform_delete. simpl.
  unfold filteredTransactions. apply filter_swap.
Qed.

(** *** More on the statistics *)

Lemma sub_zero (x : JS.number) : JS.sub x JS.zero = x.
Proof. by destruct x as [[]|[]| |[] m e]. Qed.

Lemma add_nan_r (x : JS.number) : JS.add x JS.NaN = JS.NaN.
Proof. by destruct x as [[]|[]| |[] m e]. Qed.

Lemma sub_nan_r (x : JS.number) : JS.sub x JS.NaN = JS.NaN.
Proof. by destruct x as [[]|[]| |[] m e]. Qed.

Lemma sum_from_nan (xs : list Transaction) :
  fold_left (fun sum t => JS.add sum (amount t)) xs JS.NaN = JS.NaN.
Proof. induction xs as [|t xs IH]; simpl; [done|]. exact IH. Qed.

Lemma sum_with_nan (xs : list Transaction) (t : Transaction) (sum : JS.number) :
  In t xs -> amount t = JS.NaN ->
  fold_left (fun sum t => JS.add sum (amount t)) xs sum = JS.NaN.
Proof.
  revert sum. induction xs as [|x xs IH]; intros sum Hin Hnan; simpl; [done|].
  destruct Hin as [->|Hin].
  - rewrite Hnan, add_nan_r. apply sum_from_nan.
  - by apply IH.
Qed.

Lemma filter_none_pass {A} (p : A -> bool) (l : list A) :
  Forall (fun x => p x = false) l -> List.filter p l = [].
Proof.
  induction 1 as [|x l Hx _ IH]; simpl; [done|]. by rewrite Hx.
Qed.

(** X3. A store without expense entries has expenses 0 and a balance equal
    to the income; a store without income entries has income 0. *)
Theorem stats_one_sided (st : State) :
  (Forall (fun t => type t = income) (transactions st) ->
   Stats.expenses (stats st) = JS.zero /\
   Stats.balance (stats st) = Stats.income (stats st)) /\
  (Forall (fun t => type t = expense) (transactions st) ->
   Stats.income (stats st) = JS.zero).
Proof.
  unfold stats, calculateStats, sumAmounts. simpl. split; intros H.
  - rewrite (filter_none_pass (fun t => type_eqb (type t) expense)).
    + simpl. split; [done|apply sub_zero].
    + eapply Forall_impl; [exact H|]. intros t ->. done.
  - rewrite (filter_none_pass (fun t => type_eqb (type t) income)); [done|].
    eapply Forall_impl; [exact H|]. intros t ->. done.
Qed.

Lemma stats_one_sided_witness :
  Forall (fun t => type t = income) (transactions (withStore [salary])) /\
  Stats.balance (stats (withStore [salary])) = JS.parseFloat "1000".
Proof.
  assert (H : Forall (fun t => type t = income) (transactions (withStore [salary]))).
  { repeat constructor. }
  split; [exact H|].
  rewrite (proj2 (proj1 (stats_one_sided (withStore [salary])) H)).
  vm_compute. reflexivity.
Defined.

(** X4. An amount that is not a number spoils the totals: when a stored
    entry has the amount [NaN], the total of its type and the balance are
    [NaN], and the balance is rendered with the class of a negative one. *)
Theorem nan_amount_spoils_stats (st : State) (t : Transaction) :
  In t (transactions st) -> amount t = JS.NaN ->
  (type t = income -> Stats.income (stats st) = JS.NaN) /\
  (type t = expense -> Stats.expenses (stats st) = JS.NaN) /\
  Stats.balance (stats st) = JS.NaN /\
  balanceClass st = "text-expense".
Proof.
  intros Hin Hnan.
  assert (Hty : forall ty, type t = ty ->
            sumAmounts (List.filter (fun t => type_eqb (type t) ty) (transactions st))
            = JS.NaN).
  { intros ty Hty. unfold sumAmounts. apply (sum_with_nan _ t); [|done].
    apply filter_In. split; [done|]. by apply type_eqb_eq. }
  assert (Hbal : Stats.balance (stats st) = JS.NaN).
  { unfold stats, calculateStats. simpl. destruct (type t) eqn:E.
    - by rewrite (Hty income).
    - rewrite (Hty expense) by done. apply sub_nan_r. }
  split; [apply Hty|]. split; [apply Hty|]. split; [exact Hbal|].
  unfold balanceClass. by rewrite Hbal.
Qed.

Lemma nan_amount_spoils_stats_witness :
  let st := run [ClickAdd; ChangeDescription "Rent"; ChangeAmount "abc";
                 Submit reading] (withStore [salary]) in
  let t := {| id := "1700000000000"; description := "Rent"; amount := JS.NaN;
              type := expense; category := "Food";
              date := "2023-11-14T22:13:20.000Z" |} in
  In t (transactions st) /\ amount t = JS.NaN /\
  Stats.balance (stats st) = JS.NaN /\ balanceClass st = "text-expense".
Proof.
  assert (Hin : In {| id := "1700000000000"; description := "Rent";
                      amount := JS.NaN; type := expense; category := "Food";
                      date := "2023-11-14T22:13:20.000Z" |}
                  (transactions (run [ClickAdd; ChangeDescription "Rent";
                                      ChangeAmount "abc"; Submit reading]
                                   (withStore [salary])))).
  { vm_compute. by left. }
  split; [exact Hin|]. split; [reflexivity|].
  exact (proj2 (proj2 (nan_amount_spoils_stats _ _ Hin eq_refl))).
Defined.

(** Rounding a magnitude that is not negative gives no negative number. *)
Lemma shr_1_sign (mrs : shr_record) : (0 <= shr_m mrs)%Z -> (0 <= shr_m (shr_1 mrs))%Z.
Proof.
  destruct mrs as [m r s]. simpl. intros H.
  destruct m as [|[p|p|]|p]; simpl; lia.
Qed.

Lemma iter_shr_1_sign (p : positive) (mrs : shr_record) :
  (0 <= shr_m mrs)%Z -> (0 <= shr_m (SpecFloat.iter_pos shr_1 p mrs))%Z.
Proof.
  revert mrs. induction p as [p IH|p IH|]; intros mrs H; simpl.
  - apply IH, IH. by apply shr_1_sign.
  - by apply IH, IH.
  - by apply shr_1_sign.
Qed.

Lemma shr_fexp_sign (m e : Z) (l : location) :
  (0 <= m)%Z -> (0 <= shr_m (fst (shr_fexp JS.prec JS.emax m e l)))%Z.
Proof.
  intros H. unfold shr_fexp, shr.
  assert (H0 : (0 <= shr_m (shr_record_of_loc m l))%Z).
  { by destruct l as [|[]]. }
  destruct (_ - e)%Z; simpl; try done.
  by apply iter_shr_1_sign.
Qed.

Lemma round_nearest_even_sign (m : Z) (l : location) :
  (0 <= m)%Z -> (0 <= round_nearest_even m l)%Z.
Proof.
  intros H. destruct l as [|[]]; simpl; try done; [|lia].
  destruct (Z.even m); lia.
Qed.

Lemma binary_round_aux_sign (m e : Z) (l : location) :
  (0 <= m)%Z -> notNegative (binary_round_aux JS.prec JS.emax false m e l).
Proof.
  intros H. unfold binary_round_aux.
  pose proof (shr_fexp_sign m e l H) as H1.
  destruct (shr_fexp JS.prec JS.emax m e l) as [mrs' e'].
  simpl in H1.
  pose proof (shr_fexp_sign _ e' loc_Exact
                (round_nearest_even_sign _ (loc_of_shr_record mrs') H1)) as H2.
  destruct (shr_fexp JS.prec JS.emax _ e' loc_Exact) as [mrs'' e''].
  simpl in H2.
  destruct (shr_m mrs'') as [|p|p]; simpl; [done| |lia].
  by destruct (_ <=? _)%Z.
Qed.

Lemma add_sign (a b : JS.number) :
  notNegative a -> JS.positive_finite b = true -> notNegative (JS.add a b).
Proof.
  destruct a as [[]|[]| |[] ma ea], b as [[]|[]| |[] mb eb]; simpl; try done.
  intros _ _. unfold JS.add, SFadd, binary_normalize. simpl.
  destruct (shl_align ma ea (Z.min ea eb)) as [ma' ea'].
  destruct (shl_align mb eb (Z.min ea eb)) as [mb' eb']. simpl.
  unfold binary_round.
  destruct (shl_align _ _ _) as [mz ez].
  by apply binary_round_aux_sign.
Qed.

Lemma sum_sign (xs : list Transaction) (sum : JS.number) :
  notNegative sum ->
  Forall (fun t => JS.positive_finite (amount t) = true) xs ->
  notNegative (fold_left (fun sum t => JS.add sum (amount t)) xs sum).
Proof.
  intros Hs Hall. revert sum Hs.
  induction Hall as [|t xs Ht _ IH]; intros sum Hs; simpl; [done|].
  apply IH. by apply add_sign.
Qed.

(** X5. With positive finite amounts and no expense entry the balance is
    rendered with the class of a balance that is not negative, however the
    sums round and even if they overflow. *)
Theorem incomes_render_positive (st : State) :
  Forall (fun t => type t = income /\ JS.positive_finite (amount t) = true)
    (transactions st) ->
  notNegative (Stats.income (stats st)) /\
  Stats.balance (stats st) = Stats.income (stats st) /\
  balanceClass st = "text-income".
Proof.
  intros H.
  assert (Hinc : notNegative (Stats.income (stats st))).
  { unfold stats, calculateStats, sumAmounts. simpl. apply sum_sign; [done|].
    apply filter_Forall. eapply Forall_impl; [exact H|]. by intros t [_ ?]. }
  assert (Hbal : Stats.balance (stats st) = Stats.income (stats st)).
  { unfold stats, calculateStats, sumAmounts. simpl.
    rewrite (filter_none_pass (fun t => type_eqb (type t) expense)).
    - apply sub_zero.
    - eapply Forall_impl; [exact H|]. by intros t [-> _]. }
  split; [exact Hinc|]. split; [exact Hbal|].
  unfold balanceClass. rewrite Hbal.
  by destruct (Stats.income (stats st)) as [[]|[]| |[] m e].
Qed.

Lemma incomes_render_positive_witness :
  Forall (fun t => type t = income /\ JS.positive_finite (amount t) = true)
    (transactions (withStore [salary; salary])) /\
  balanceClass (withStore [salary; salary]) = "text-income".
Proof.
  assert (H : Forall (fun t => type t = income /\ JS.positive_finite (amount t) = true)
                (transactions (withStore [salary; salary]))).
  { repeat constructor. }
  split; [exact H|].
  exact (proj2 (proj2 (incomes_render_positive _ H))).
Defined.

(** *** What a submission and a deletion do to the state *)

Lemma step_submit_rejected (clock : Clock) (st : State) :
  JS.trim (FormData.description (formData st)) = "" \/
  FormData.amount (formData st) = "" ->
  step (Submit clock) st = st.
Proof.
  intros H. unfold step, perform. simpl.
  assert (E : handleSubmit clock (formData st)
              = {| returns := JS.undefined; calls := [] |}).
  { unfold handleSubmit. destruct H as [H|H]; apply truthy_empty in H;
      rewrite H; simpl; [done|]. by rewrite orb_true_r. }
  rewrite E. simpl. by rewrite rerender_same_type.
Qed.

Lemma step_submit_accepted (clock : Clock) (st : State) :
  JS.trim (FormData.description (formData st)) <> "" ->
  FormData.amount (formData st) <> "" ->
  step (Submit clock) st =
  {| transactions := entryOf clock (formData st) :: transactions st;
     showModal := false;
     filter := filter st;
     formData := formData initialState |}.
Proof.
  intros Hd Ha. apply truthy_nonempty in Hd, Ha.
  unfold step, perform, rerender. simpl. unfold handleSubmit.
  rewrite Hd, Ha. simpl. unfold entryOf.
  by destruct (FormData.type (formData st)).
Qed.

Lemma step_submit_cases (clock : Clock) (st : State) :
  step (Submit clock) st = st \/
  step (Submit clock) st =
  {| transactions := entryOf clock (formData st) :: transactions st;
     showModal := false;
     filter := filter st;
     formData := formData initialState |}.
Proof.
  destruct (decide (JS.trim (FormData.description (formData st)) = "")) as [E|N].
  { left. apply step_submit_rejected. by left. }
  destruct (decide (FormData.amount (formData st) = "")) as [E|N'].
  { left. apply step_submit_rejected. by right. }
  right. by apply step_submit_accepted.
Qed.

Lemma step_delete (id0 : string) (st : State) :
  step (ClickDelete id0) st =
  {| transactions :=
       List.filter (fun t => negb (String.eqb (id t) id0)) (transactions st);
     showModal := showModal st;
     filter := filter st;
     formData := formData st |}.
Proof. unfold step. simpl. apply perform_delete. Qed.

(** X6. A submission changes the total of its own type at most: with the
    form on expense the income stays as it is, with the form on income the
    expenses do, whether the submission is accepted or not. *)
Theorem submit_keeps_other_total (clock : Clock) (st : State) :
  (FormData.type (formData st) = expense ->
   Stats.income (stats (step (Submit clock) st)) = Stats.income (stats st)) /\
  (FormData.type (formData st) = income ->
   Stats.expenses (stats (step (Submit clock) st)) = Stats.expenses (stats st)).
Proof.
  destruct (step_submit_cases clock st) as [-> | ->]; [done|].
  unfold stats, calculateStats. simpl. split; intros ->; done.
Qed.

Lemma submit_keeps_other_total_witness :
  let st := run [ClickAdd; ChangeDescription "Rent"; ChangeAmount "700"]
              (withStore [salary]) in
  FormData.type (formData st) = expense /\
  Stats.income (stats (step (Submit reading) st)) = JS.parseFloat "1000".
Proof.
  assert (H : FormData.type (formData
            (run [ClickAdd; ChangeDescription "Rent"; ChangeAmount "700"]
               (withStore [salary]))) = expense) by reflexivity.
  split; [exact H|].
  rewrite (proj1 (submit_keeps_other_total reading _) H).
  vm_compute. reflexivity.
Defined.

Lemma filter_after_removal {A} (p keep : A -> bool) (l : list A) :
  Forall (fun x => keep x = false -> p x = false) l ->
  List.filter p (List.filter keep l) = List.filter p l.
Proof.
  induction 1 as [|x l Hx _ IH]; simpl; [done|].
  destruct (keep x) eqn:E; simpl.
  - by rewrite IH.
  - by rewrite (Hx eq_refl).
Qed.

(** X7. Deleting an id carried by expense entries only leaves the income as
    it is; deleting one carried by income entries only leaves the expenses
    as they are. *)
Theorem delete_keeps_other_total (id0 : string) (st : State) (ty : TransactionType) :
  Forall (fun t => id t = id0 -> type t = ty) (transactions st) ->
  match ty with
  | expense =>
      Stats.income (stats (step (ClickDelete id0) st)) = Stats.income (stats st)
  | income =>
      Stats.expenses (stats (step (ClickDelete id0) st)) = Stats.expenses (stats st)
  end.
Proof.
  intros H. rewrite step_delete. unfold stats, calculateStats. simpl.
  destruct ty; f_equal; apply filter_after_removal;
    (eapply Forall_impl; [exact H|]); intros t Ht Hk;
    apply negb_false_iff, String.eqb_eq in Hk; by rewrite (Ht Hk).
Qed.

Lemma delete_keeps_other_total_witness :
  Forall (fun t => id t = "1" -> type t = expense)
    (transactions (withStore [coffee; salary])) /\
  Stats.income (stats (step (ClickDelete "1") (withStore [coffee; salary])))
  = Stats.income (stats (withStore [coffee; salary])).
Proof.
  assert (H : Forall (fun t => id t = "1" -> type t = expense)
                (transactions (withStore [coffee; salary]))).
  { repeat constructor. simpl. discriminate. }
  split; [exact H|].
  exact (delete_keeps_other_total "1" _ expense H).
Defined.

(** X8. Deleting the same id again changes nothing, and two deletions give
    the same state in either order. *)
Theorem delete_idempotent_commutes (a b : string) (st : State) :
  step (ClickDelete a) (step (ClickDelete a) st) = step (ClickDelete a) st /\
  step (ClickDelete a) (step (ClickDelete b) st)
  = step (ClickDelete b) (step (ClickDelete a) st).
Proof.
  rewrite !step_delete. simpl. split; f_equal.
  - apply filter_filter_same.
  - apply filter_swap.
Qed.

(** X9. Deleting a just submitted entry by its id gives back the store as
    it was before the submission, when that id was not in the store. *)
Theorem submit_then_delete (clock : Clock) (st : State) :
  JS.trim (FormData.description (formData st)) <> "" ->
  FormData.amount (formData st) <> "" ->
  ~ In (JS.toString (now clock)) (map id (transactions st)) ->
  transactions (step (ClickDelete (JS.toString (now clock))) (step (Submit clock) st))
  = transactions st.
Proof.
  intros Hd Ha Hfresh. rewrite step_delete, step_submit_accepted by done.
  simpl. rewrite String.eqb_refl. simpl. by apply delete_absent.
Qed.

Lemma submit_then_delete_witness :
  let st := run [ClickAdd; ChangeDescription "Tea"; ChangeAmount "2"]
              (withStore [coffee; salary]) in
  JS.trim (FormData.description (formData st)) <> "" /\
  FormData.amount (formData st) <> "" /\
  ~ In (JS.toString (now reading)) (map id (transactions st)) /\
  transactions (step (ClickDelete "1700000000000") (step (Submit reading) st))
  = [coffee; salary].
Proof.
  assert (Hd : JS.trim (FormData.description (formData
            (run [ClickAdd; ChangeDescription "Tea"; ChangeAmount "2"]
               (withStore [coffee; salary])))) <> "") by (vm_compute; discriminate).
  assert (Ha : FormData.amount (formData
            (run [ClickAdd; ChangeDescription "Tea"; ChangeAmount "2"]
               (withStore [coffee; salary]))) <> "") by (vm_compute; discriminate).
  assert (Hf : ~ In (JS.toString (now reading)) (map id (transactions
            (run [ClickAdd; ChangeDescription "Tea"; ChangeAmount "2"]
               (withStore [coffee; salary])))))
    by (vm_compute; intuition discriminate).
  split; [exact Hd|]. split; [exact Ha|]. split; [exact Hf|].
  exact (submit_then_delete reading _ Hd Ha Hf).
Defined.

(** X10. An accepted submission empties the form back to its initial
    content (type expense, category Food), closes the modal and leaves the
    filter criterion as it is, whatever type the form was on. *)
Theorem submit_resets_form (clock : Clock) (st : State) :
  JS.trim (FormData.description (formData st)) <> "" ->
  FormData.amount (formData st) <> "" ->
  formData (step (Submit clock) st) = formData initialState /\
  showModal (step (Submit clock) st) = false /\
  filter (step (Submit clock) st) = filter st.
Proof. intros Hd Ha. by rewrite step_submit_accepted. Qed.

Lemma submit_resets_form_witness :
  let st := run [ClickAdd; ClickType income; ChangeCategory "Freelance";
                 ChangeDescription "Logo"; ChangeAmount "250";
                 ClickFilter (only income)] initialState in
  JS.trim (FormData.description (formData st)) <> "" /\
  FormData.amount (formData st) <> "" /\
  formData (step (Submit reading) st) = formData initialState /\
  showModal (step (Submit reading) st) = false /\
  filter (step (Submit reading) st) = only income.
Proof.
  assert (Hd : JS.trim (FormData.description (formData
            (run [ClickAdd; ClickType income; ChangeCategory "Freelance";
                  ChangeDescription "Logo"; ChangeAmount "250";
                  ClickFilter (only income)] initialState))) <> "")
    by (vm_compute; discriminate).
  assert (Ha : FormData.amount (formData
            (run [ClickAdd; ClickType income; ChangeCategory "Freelance";
                  ChangeDescription "Logo"; ChangeAmount "250";
                  ClickFilter (only income)] initialState)) <> "")
    by (vm_compute; discriminate).
  split; [exact Hd|]. split; [exact Ha|].
  exact (submit_resets_form reading _ Hd Ha).
Defined.

Lemma step_keeps_store (ev : Event) (st : State) :
  keepsStore ev = true -> transactions (step ev st) = transactions st.
Proof.
  intros H. unfold step, perform. rewrite rerender_transactions.
  by destruct ev.
Qed.

(** X11. Opening and closing the modal, choosing a filter and editing the
    form never change the store or the statistics. *)
Theorem other_events_keep_store (ev : Event) (st : State) :
  keepsStore ev = true ->
  transactions (step ev st) = transactions st /\ stats (step ev st) = stats st.
Proof.
  intros H. unfold stats. by rewrite step_keeps_store.
Qed.

Lemma other_events_keep_store_witness :
  keepsStore (ClickType income) = true /\
  transactions (step (ClickType income) (withStore [coffee; salary]))
  = [coffee; salary].
Proof.
  split; [reflexivity|].
  exact (proj1 (other_events_keep_store (ClickType income)
                  (withStore [coffee; salary]) eq_refl)).
Defined.

(** *** The form *)

Lemma step_form_paired (ev : Event) (st : State) :
  formPaired (formData st) -> offered st ev -> formPaired (formData (step ev st)).
Proof.
  intros Hfd Hoff. unfold formPaired in *.
  destruct ev as [| |f|v|v|t|v|clock|id0].
  1-5, 7: unfold step, perform, rerender; simpl; rewrite type_eqb_refl; simpl;
    try done; by destruct Hoff.
  - unfold step, perform, rerender. simpl.
    destruct (type_eqb t (FormData.type (formData st))) eqn:E; simpl.
    + apply type_eqb_eq in E. by subst t.
    + apply firstCategory_paired.
  - destruct (step_submit_cases clock st) as [-> | ->]; [done|]. simpl. by left.
  - by rewrite step_delete.
Qed.

(** X12. Along every sequence of events the page offers, the category held
    by the form is one of the categories of the form's type: the category
    control always shows one of its own options. *)
Theorem form_stays_paired (evs : list Event) (st : State) :
  formPaired (formData st) -> offeredAll evs st ->
  formPaired (formData (run evs st)).
Proof.
  revert st. induction evs as [|ev evs IH]; intros st Hfd Hoff; simpl; [done|].
  destruct Hoff as [Hev Hrest]. apply IH; [|done]. by apply step_form_paired.
Qed.

Lemma form_stays_paired_witness :
  let evs := [ClickAdd; ClickType income; ChangeCategory "Investment";
              ClickType expense; ChangeDescription "Bus"] in
  formPaired (formData initialState) /\ offeredAll evs initialState /\
  formPaired (formData (run evs initialState)).
Proof.
  assert (Hfd : formPaired (formData initialState)) by (by left).
  assert (Hoff : offeredAll [ClickAdd; ClickType income; ChangeCategory "Investment";
                             ClickType expense; ChangeDescription "Bus"] initialState).
  { vm_compute. intuition. }
  split; [exact Hfd|]. split; [exact Hoff|].
  exact (form_stays_paired _ _ Hfd Hoff).
Defined.

(** X13. Clicking a type button sets the form's type; when that is another
    type than before, the category effect puts the first category of the new
    type in the form, and when it is the same type the category stays.
    Description, amount and everything outside the form are left alone. *)
Theorem click_type_resets_category (t : TransactionType) (st : State) :
  let st' := step (ClickType t) st in
  FormData.type (formData st') = t /\
  FormData.category (formData st')
  = (if decide (t = FormData.type (formData st))
     then FormData.category (formData st) else firstCategory t) /\
  FormData.description (formData st') = FormData.description (formData st) /\
  FormData.amount (formData st') = FormData.amount (formData st) /\
  transactions st' = transactions st /\ showModal st' = showModal st /\
  filter st' = filter st.
Proof.
  unfold step, perform, rerender. simpl.
  destruct (decide (t = FormData.type (formData st))) as [E|N].
  - subst t. by rewrite type_eqb_refl.
  - destruct (type_eqb t (FormData.type (formData st))) eqn:E; [|done].
    apply type_eqb_eq in E. contradiction.
Qed.

(** *** The list on the page *)

Lemma filter_shorter {A} (p : A -> bool) (l : list A) (x : A) :
  In x l -> p x = false -> length (List.filter p l) < length l.
Proof.
  induction l as [|y l IH]; simpl; [done|]. intros [->|Hin] Hx.
  - rewrite Hx. pose proof (filter_count p l). lia.
  - specialize (IH Hin Hx). destruct (p y); simpl; lia.
Qed.

(** X14. Every delete button removes something: when the id is that of a
    listed transaction, both the store and the list on the page get shorter,
    and no entry with that id is left. *)
Theorem offered_delete_removes (id0 : string) (st : State) :
  offered st (ClickDelete id0) ->
  length (transactions (step (ClickDelete id0) st)) < length (transactions st) /\
  length (shown (step (ClickDelete id0) st)) < length (shown st) /\
  ~ In id0 (map id (transactions (step (ClickDelete id0) st))).
Proof.
  simpl. intros Hoff. apply in_map_iff in Hoff as (t & Hid & Hin).
  assert (Hk : negb (String.eqb (id t) id0) = false).
  { apply negb_false_iff, String.eqb_eq, Hid. }
  rewrite step_delete. unfold shown. simpl. repeat split.
  - apply (filter_shorter _ _ t); [|done].
    unfold shown, filteredTransactions in Hin. apply filter_In in Hin. tauto.
  - unfold filteredTransactions. rewrite filter_swap.
    by apply (filter_shorter _ _ t).
  - apply delete_no_id.
Qed.

Lemma offered_delete_removes_witness :
  let st := step (ClickFilter (only expense)) (withStore [coffee; salary]) in
  offered st (ClickDelete "1") /\
  length (transactions (step (ClickDelete "1") st)) < length (transactions st).
Proof.
  assert (H : offered (step (ClickFilter (only expense)) (withStore [coffee; salary]))
                (ClickDelete "1")) by (vm_compute; by left).
  split; [exact H|].
  exact (proj1 (offered_delete_removes "1" _ H)).
Defined.

(** X15. An accepted submission shows on the page only under a filter that
    lets its type through: then the new entry heads the list; under the
    filter of the other type the list on the page stays as it was. *)
Theorem shown_after_submit (clock : Clock) (st : State) :
  JS.trim (FormData.description (formData st)) <> "" ->
  FormData.amount (formData st) <> "" ->
  shown (step (Submit clock) st) =
  match filter st with
  | all => entryOf clock (formData st) :: shown st
  | only ty =>
      if decide (FormData.type (formData st) = ty)
      then entryOf clock (formData st) :: shown st
      else shown st
  end.
Proof.
  intros Hd Ha. rewrite step_submit_accepted by done.
  unfold shown, filteredTransactions. simpl.
  destruct (filter st) as [|ty]; [done|].
  destruct (decide (FormData.type (formData st) = ty)) as [E|N].
  - apply type_eqb_eq in E. by rewrite E.
  - destruct (type_eqb _ ty) eqn:E; [|done].
    apply type_eqb_eq in E. contradiction.
Qed.

Lemma shown_after_submit_witness :
  let st := run [ClickFilter (only expense); ClickAdd; ClickType income;
                 ChangeDescription "Pay"; ChangeAmount "1000"]
              (withStore [coffee]) in
  JS.trim (FormData.description (formData st)) <> "" /\
  FormData.amount (formData st) <> "" /\
  shown (step (Submit reading) st) = [coffee] /\
  length (transactions (step (Submit reading) st)) = 2.
Proof.
  assert (Hd : JS.trim (FormData.description (formData
            (run [ClickFilter (only expense); ClickAdd; ClickType income;
                  ChangeDescription "Pay"; ChangeAmount "1000"]
               (withStore [coffee])))) <> "") by (vm_compute; discriminate).
  assert (Ha : FormData.amount (formData
            (run [ClickFilter (only expense); ClickAdd; ClickType income;
                  ChangeDescription "Pay"; ChangeAmount "1000"]
               (withStore [coffee]))) <> "") by (vm_compute; discriminate).
  split; [exact Hd|]. split; [exact Ha|]. split; [|reflexivity].
  rewrite (shown_after_submit reading _ Hd Ha). vm_compute. reflexivity.
Defined.

(** X16. The notice "No transactions yet" is rendered exactly when no stored
    transaction passes the filter, which under a type filter happens with a
    store that is not empty; under the criterion [all] it is rendered
    exactly for the empty store. *)
Theorem empty_notice (st : State) :
  (showsEmptyNotice st = true <->
   Forall (fun t => ~ passes (filter st) t) (transactions st)) /\
  (filter st = all -> (showsEmptyNotice st = true <-> transactions st = [])).
Proof.
  assert (Hgen : showsEmptyNotice st = true <->
                 Forall (fun t => ~ passes (filter st) t) (transactions st)).
  { unfold showsEmptyNotice, shown, filteredTransactions.
    rewrite Nat.eqb_eq, length_zero_iff_nil.
    induction (transactions st) as [|t ts IH]; simpl.
    - split; [constructor|done].
    - destruct (filter st) as [|ty]; simpl.
      + split; [done|]. intros H. inversion H as [|? ? Ht _]. by destruct Ht.
      + destruct (type_eqb (type t) ty) eqn:E.
        * apply type_eqb_eq in E. split; [done|].
          intros H. inversion H as [|? ? Ht _]. contradiction.
        * split.
          -- intros H. constructor; [|by apply IH].
             simpl. intros Ht. apply type_eqb_eq in Ht. congruence.
          -- intros H. inversion H. by apply IH. }
  split; [exact Hgen|]. intros Hall. rewrite Hgen, Hall. split.
  - intros H. destruct (transactions st) as [|t ts]; [done|].
    inversion H as [|? ? Ht _]. by destruct Ht.
  - intros ->. constructor.
Qed.

Lemma empty_notice_witness :
  let st := step (ClickFilter (only income)) (withStore [coffee]) in
  Forall (fun t => ~ passes (filter st) t) (transactions st) /\
  showsEmptyNotice st = true /\ transactions st <> [].
Proof.
  assert (H : Forall (fun t => ~ passes
                (filter (step (ClickFilter (only income)) (withStore [coffee]))) t)
                (transactions (step (ClickFilter (only income)) (withStore [coffee])))).
  { repeat constructor. simpl. discriminate. }
  split; [exact H|]. split; [|discriminate].
  exact (proj2 (proj1 (empty_notice _)) H).
Defined.

(** *** What the store holds after a trace *)

Lemma trimStart_length (s : string) :
  String.length (JS.trimStart s) <= String.length s.
Proof.
  induction s as [|c s IH]; simpl; [lia|].
  destruct (JS.isWhiteSpace c); simpl; lia.
Qed.

Lemma trimStart_twice (s : string) : JS.trimStart (JS.trimStart s) = JS.trimStart s.
Proof.
  induction s as [|c s IH]; simpl; [done|].
  destruct (JS.isWhiteSpace c) eqn:E; [done|]. simpl. by rewrite E.
Qed.

Lemma trimStart_trimEnd (s : string) :
  JS.trimStart s = s -> JS.trimStart (JS.trimEnd s) = JS.trimEnd s.
Proof.
  destruct s as [|c s]; simpl; [done|].
  destruct (JS.isWhiteSpace c) eqn:E.
  - intros H. pose proof (trimStart_length s) as L. rewrite H in L. simpl in L. lia.
  - intros _. destruct (JS.trimEnd s); simpl; by rewrite E.
Qed.

Lemma trimEnd_twice (s : string) : JS.trimEnd (JS.trimEnd s) = JS.trimEnd s.
Proof.
  induction s as [|c s IH]; simpl; [done|].
  destruct (JS.trimEnd s) as [|d r] eqn:E.
  - destruct (JS.isWhiteSpace c) eqn:Ec; simpl; [done|]. by rewrite Ec.
  - change (JS.trimEnd (String c (String d r))) with
      (match JS.trimEnd (String d r) with
       | EmptyString =>
           if JS.isWhiteSpace c then EmptyString else String c EmptyString
       | r' => String c r'
       end).
    by rewrite IH.
Qed.

Lemma trim_twice (s : string) : JS.trim (JS.trim s) = JS.trim s.
Proof.
  unfold JS.trim.
  rewrite (trimStart_trimEnd (JS.trimStart s)) by apply trimStart_twice.
  apply trimEnd_twice.
Qed.

Lemma step_descriptions (ev : Event) (st : State) :
  Forall (fun t => trimmed (description t)) (transactions st) ->
  Forall (fun t => trimmed (description t)) (transactions (step ev st)).
Proof.
  intros H. destruct ev as [| |f|v|v|t|v|clock|id0];
    try (by rewrite step_keeps_store).
  - destruct (decide (JS.trim (FormData.description (formData st)) = "")) as [E|N].
    { rewrite step_submit_rejected; [done|by left]. }
    destruct (decide (FormData.amount (formData st) = "")) as [E|N'].
    { rewrite step_submit_rejected; [done|by right]. }
    rewrite step_submit_accepted by done. simpl.
    constructor; [|done]. split; [done|apply trim_twice].
  - rewrite step_delete. simpl. by apply filter_Forall.
Qed.

(** X17. Descriptions are stored trimmed: from a store whose descriptions
    are not empty and have no white space at either end, every sequence of
    events leads to such a store. *)
Theorem descriptions_stay_trimmed (evs : list Event) (st : State) :
  Forall (fun t => trimmed (description t)) (transactions st) ->
  Forall (fun t => trimmed (description t)) (transactions (run evs st)).
Proof.
  revert st. induction evs as [|ev evs IH]; intros st H; simpl; [done|].
  by apply IH, step_descriptions.
Qed.

Lemma descriptions_stay_trimmed_witness :
  let evs := [ClickAdd; ChangeDescription "  Bus ticket   "; ChangeAmount "3";
              Submit reading] in
  Forall (fun t => trimmed (description t)) (transactions (withStore [coffee])) /\
  map description (transactions (run evs (withStore [coffee])))
  = ["Bus ticket"; "Coffee"] /\
  Forall (fun t => trimmed (description t)) (transactions (run evs (withStore [coffee]))).
Proof.
  assert (H : Forall (fun t => trimmed (description t))
                (transactions (withStore [coffee]))).
  { repeat constructor. simpl. discriminate. }
  split; [exact H|]. split; [reflexivity|].
  exact (descriptions_stay_trimmed _ _ H).
Defined.

Lemma step_ids (ev : Event) (st : State) :
  incl (map id (transactions (step ev st)))
       (submittedIds [ev] ++ map id (transactions st)) /\
  length (transactions (step ev st))
  <= length (submittedIds [ev]) + length (transactions st).
Proof.
  destruct ev as [| |f|v|v|t|v|clock|id0];
    try (rewrite step_keeps_store by done; simpl; split; [apply incl_refl|lia]).
  - destruct (step_submit_cases clock st) as [-> | ->]; simpl.
    + split; [apply incl_tl, incl_refl|lia].
    + split; [apply incl_refl|lia].
  - rewrite step_delete. simpl. split.
    + intros x Hx. apply in_map_iff in Hx as (t & <- & Ht).
      apply filter_In in Ht as [Ht _]. by apply in_map.
    + pose proof (filter_length_le (fun t => negb (String.eqb (id t) id0))
                    (transactions st)) as L. simpl in L. lia.
Qed.

Lemma submittedIds_cons (ev : Event) (evs : list Event) :
  submittedIds (ev :: evs) = (submittedIds [ev] ++ submittedIds evs)%list.
Proof. by destruct ev. Qed.

(** X18. Where the entries of the store come from: after a sequence of
    events every id in the store is an id the store had at the start or the
    clock reading of one of the submissions, and the store has grown by at
    most the number of submissions. *)
Theorem store_ids_provenance (evs : list Event) (st : State) :
  incl (map id (transactions (run evs st)))
       (submittedIds evs ++ map id (transactions st)) /\
  length (transactions (run evs st))
  <= length (submittedIds evs) + length (transactions st).
Proof.
  revert st. induction evs as [|ev evs IH]; intros st.
  - simpl. split; [apply incl_refl|lia].
  - destruct (IH (step ev st)) as [Hin Hlen].
    destruct (step_ids ev st) as [Hin1 Hlen1].
    rewrite submittedIds_cons. change (run (ev :: evs) st) with (run evs (step ev st)).
    split.
    + intros x Hx. apply Hin in Hx. rewrite !in_app_iff in *.
      destruct Hx as [Hx|Hx]; [tauto|].
      apply Hin1 in Hx. rewrite in_app_iff in Hx. tauto.
    + rewrite length_app. lia.
Qed.

(** *** The durable slot over the life of the component *)

Lemma applyAll_keeps_store (us : list SetState) (st : State) :
  existsb isSetTransactions us = false ->
  transactions (applyAll us st) = transactions st.
Proof.
  revert st. induction us as [|u us IH]; intros st H; simpl in *; [done|].
  apply orb_false_iff in H as [Hu Hus].
  unfold applyAll in *. simpl. rewrite IH by done. by destruct u.
Qed.

Lemma dispatch_keeps_sync
    (JSON_stringify : list Transaction -> string) (ev : Event) (c : Component) :
  inSync JSON_stringify c -> inSync JSON_stringify (dispatch JSON_stringify ev c).
Proof.
  intros H. unfold inSync.
  destruct (existsb isSetTransactions (calls (handle ev (state c)))) eqn:E.
  - by apply dispatch_saves.
  - unfold dispatch. simpl. rewrite E. unfold perform.
    rewrite rerender_transactions, applyAll_keeps_store by done. exact H.
Qed.

Lemma dispatchAll_keeps_sync
    (JSON_stringify : list Transaction -> string) (evs : list Event) (c : Component) :
  inSync JSON_stringify c -> inSync JSON_stringify (dispatchAll JSON_stringify evs c).
Proof.
  revert c. induction evs as [|ev evs IH]; intros c H; simpl; [done|].
  by apply IH, dispatch_keeps_sync.
Qed.

Lemma mount_in_sync
    (JSON_stringify : list Transaction -> string) (ls : gmap string string)
    (c : Component) :
  mount JSON_stringify ls = Some c -> inSync JSON_stringify c.
Proof.
  unfold mount, inSync. destruct (loadEffect ls) as [|v| |]; try done.
  - intros [= <-]. simpl. unfold saveEffect. apply lookup_insert_eq.
  - destruct (asTransactions v) as [ts|]; [|done].
    intros [= <-]. simpl. unfold saveEffect. apply lookup_insert_eq.
Qed.

(** X19. Write-through: once the component is mounted, after every sequence
    of events the slot holds the serialisation of the store the component
    has at that moment. *)
Theorem slot_follows_store
    (JSON_stringify : list Transaction -> string) (ls : gmap string string)
    (c : Component) (evs : list Event) :
  mount JSON_stringify ls = Some c ->
  inSync JSON_stringify (dispatchAll JSON_stringify evs c).
Proof. intros H. by apply dispatchAll_keeps_sync, (mount_in_sync _ ls). Qed.

Lemma slot_follows_store_witness :
  let s : list Transaction -> string := fun _ => "[]" in
  let c := {| state := initialState; localStorage := {[ slot := "[]" ]} |} in
  mount s ∅ = Some c /\
  inSync s (dispatchAll s [ClickAdd; ChangeAmount "5"; Submit reading] c).
Proof.
  assert (H : mount (fun _ => "[]") ∅
              = Some {| state := initialState; localStorage := {[ slot := "[]" ]} |})
    by reflexivity.
  split; [exact H|].
  exact (slot_follows_store (fun _ => "[]") ∅ _
           [ClickAdd; ChangeAmount "5"; Submit reading] H).
Defined.

Lemma dispatch_other_keys
    (JSON_stringify : list Transaction -> string) (ev : Event) (c : Component)
    (k : string) :
  k <> slot ->
  localStorage (dispatch JSON_stringify ev c) !! k = localStorage c !! k.
Proof.
  intros Hk. unfold dispatch. simpl.
  destruct (existsb isSetTransactions _); [|done].
  unfold saveEffect. by apply lookup_insert_ne.
Qed.

(** X20. The component touches no key of the storage but its own: mounting
    and every sequence of events leave the value under every other key as it
    was. *)
Theorem other_keys_untouched
    (JSON_stringify : list Transaction -> string) (ls : gmap string string)
    (c : Component) (evs : list Event) (k : string) :
  k <> slot -> mount JSON_stringify ls = Some c ->
  localStorage c !! k = ls !! k /\
  localStorage (dispatchAll JSON_stringify evs c) !! k = ls !! k.
Proof.
  intros Hk Hm.
  assert (H0 : localStorage c !! k = ls !! k).
  { unfold mount in Hm. destruct (loadEffect ls) as [|v| |]; try done.
    - injection Hm as <-. simpl. unfold saveEffect. by apply lookup_insert_ne.
    - destruct (asTransactions v) as [ts|]; [|done].
      injection Hm as <-. simpl. unfold saveEffect.
      by rewrite !lookup_insert_ne. }
  split; [exact H0|]. rewrite <- H0. clear H0 Hm.
  revert c. induction evs as [|ev evs IH]; intros c; simpl; [done|].
  rewrite IH. by apply dispatch_other_keys.
Qed.

Lemma other_keys_untouched_witness :
  let s : list Transaction -> string := fun _ => "[]" in
  let ls : gmap string string := {[ "theme" := "dark" ]} in
  let c := {| state := initialState;
              localStorage := <[ slot := "[]" ]> ls |} in
  "theme" <> slot /\ mount s ls = Some c /\
  localStorage (dispatchAll s [ClickAdd; ChangeAmount "5"; Submit reading] c) !! "theme"
  = Some "dark".
Proof.
  assert (Hk : "theme" <> slot) by discriminate.
  assert (Hm : mount (fun _ => "[]") ({[ "theme" := "dark" ]} : gmap string string)
               = Some {| state := initialState;
                         localStorage := <[ slot := "[]" ]> {[ "theme" := "dark" ]} |})
    by reflexivity.
  split; [exact Hk|]. split; [exact Hm|].
  rewrite (proj2 (other_keys_untouched (fun _ => "[]") _ _
                    [ClickAdd; ChangeAmount "5"; Submit reading] "theme" Hk Hm)).
  reflexivity.
Defined.

(** X21. Mounting again on the storage a component leaves behind brings back
    its store and leaves the storage as it is, provided the serialisation of
    that store is a text [JSON.parse] reads back as the store. *)
Theorem remount_restores
    (JSON_stringify : list Transaction -> string) (c : Component) (v : JSON.value) :
  inSync JSON_stringify c ->
  JSON.parse (JSON_stringify (transactions (state c))) = JSON.Ok v ->
  asTransactions v = Some (transactions (state c)) ->
  exists c',
    mount JSON_stringify (localStorage c) = Some c' /\
    transactions (state c') = transactions (state c) /\
    localStorage c' = localStorage c.
Proof.
  intros Hsync Hparse Hshape. unfold inSync in Hsync.
  assert (Hne : JS.truthy (JSON_stringify (transactions (state c))) = true).
  { apply truthy_nonempty. intros E. rewrite E in Hparse. discriminate. }
  unfold mount. rewrite (loadEffect_present _ _ Hsync), Hne, Hparse, Hshape.
  eexists. split; [reflexivity|]. simpl. split; [done|].
  unfold saveEffect. simpl. rewrite insert_insert_eq. by apply insert_id.
Qed.

Lemma remount_restores_witness :
  let text := JSON.text
    "[{'id':'1','description':'Coffee','amount':4.50,'type':'expense','category':'Food','date':'2024-01-01T00:00:00.000Z'}]" in
  let s : list Transaction -> string := fun _ => text in
  let c := {| state := withStore [coffee]; localStorage := {[ slot := text ]} |} in
  inSync s c /\
  (exists v, JSON.parse (s (transactions (state c))) = JSON.Ok v /\
             asTransactions v = Some (transactions (state c))) /\
  exists c', mount s (localStorage c) = Some c' /\
             transactions (state c') = [coffee] /\
             localStorage c' = localStorage c.
Proof.
  set (text := JSON.text
    "[{'id':'1','description':'Coffee','amount':4.50,'type':'expense','category':'Food','date':'2024-01-01T00:00:00.000Z'}]").
  set (v := JSON.Array [JSON.Object
      [("id", JSON.Str "1"); ("description", JSON.Str "Coffee");
       ("amount", JSON.Number (JS.parseFloat "4.50"));
       ("type", JSON.Str "expense"); ("category", JSON.Str "Food");
       ("date", JSON.Str "2024-01-01T00:00:00.000Z")]]).
  set (c := {| state := withStore [coffee]; localStorage := {[ slot := text ]} |}).
  assert (Hs : inSync (fun _ => text) c) by (vm_compute; reflexivity).
  assert (Hp : JSON.parse ((fun _ => text) (transactions (state c))) = JSON.Ok v)
    by (vm_compute; reflexivity).
  assert (Ha : asTransactions v = Some (transactions (state c)))
    by (vm_compute; reflexivity).
  split; [exact Hs|]. split; [by exists v|].
  exact (remount_restores (fun _ => text) c v Hs Hp Ha).
Defined.

(** X22. The first run: mounted on a storage whose slot is absent or holds
    the empty string, the component starts in its initial state and writes
    the serialisation of the empty store to the slot. *)
Theorem mount_without_saved_data
    (JSON_stringify : list Transaction -> string) (ls : gmap string string) :
  ls !! slot = None \/ ls !! slot = Some "" ->
  mount JSON_stringify ls
  = Some {| state := initialState;
            localStorage := <[ slot := JSON_stringify [] ]> ls |}.
Proof.
  intros H. unfold mount.
  assert (E : loadEffect ls = NoUpdate).
  { destruct H as [H|H]; [by apply loadEffect_absent|].
    by rewrite (loadEffect_present _ _ H). }
  by rewrite E.
Qed.

Lemma mount_without_saved_data_witness :
  let ls : gmap string string := {[ slot := "" ]} in
  ls !! slot = Some "" /\
  mount (fun _ => "[]") ls
  = Some {| state := initialState; localStorage := <[ slot := "[]" ]> ls |}.
Proof.
  assert (H : ({[ slot := "" ]} : gmap string string) !! slot = Some "")
    by reflexivity.
  split; [exact H|].
  exact (mount_without_saved_data (fun _ => "[]") _ (or_intror H)).
Defined.
